(** * Smart blinds firmware: calibration, motion and persistence

    A shallow embedding of [code/blinds_with_matter.ino].  The sketch is a
    single cooperative loop over global variables; it is modelled here as a
    state-and-error monad over a [World] holding the globals, the function
    statics, the EEPROM bytes and the trace of everything the sketch outputs.
    Everything the sketch reads from outside (pin levels, the millisecond
    clock, the Matter attributes) comes from an environment oracle indexed by
    the number of reads made so far, so no assumption is made on how the
    clock or the pins evolve between two reads.  Serial logging is left out,
    except that arguments evaluated for a log line are still evaluated. *)

From stdpp Require Import base decidable list gmap.
From Stdlib Require Import ZArith Lia.

Local Open Scope Z_scope.

(** ** Machine integers and the Arduino core *)

Module Arduino.

(** [uint16_t], [unsigned long] (32 bits on the target) and [long]. *)
Definition to_u16 (z : Z) : Z := z mod 65536.
Definition to_u32 (z : Z) : Z := z mod 4294967296.
Definition to_i32 (z : Z) : Z := (z + 2147483648) mod 4294967296 - 2147483648.

(** The Arduino core's [map], declared by [Arduino.h]:
    [(x - in_min) * (out_max - out_min) / (in_max - in_min) + out_min]
    on [long], with the truncating division of C.  A zero divisor has no
    defined result and is reported as [None]; the arithmetic on [long] is
    taken with two's complement wrap-around. *)
Definition map (x in_min in_max out_min out_max : Z) : option Z :=
  let divisor := to_i32 (in_max - in_min) in
  if divisor =? 0 then None
  else Some (to_i32 (Z.quot (to_i32 (to_i32 (x - in_min) * to_i32 (out_max - out_min)))
                            divisor
                     + out_min)).

End Arduino.

(** ** Constants of the sketch *)

Definition STEP_DELAY_CALIBRATION : Z := 500.
Definition STEP_DELAY_MATTER : Z := 1000.
Definition MOTOR_DISABLE_INTERVAL : Z := 1000.
Definition AUTO_SAVE_INTERVAL : Z := 300000.
Definition HOLD_TIMER_THRESHOLD : Z := 3000.
Definition STEPS_PER_PRESS : Z := 5.
Definition DEBOUNCE_MS : Z := 70.

Definition EEPROM_MIN_POS_ADDR : Z := 0.
Definition EEPROM_MAX_POS_ADDR : Z := 2.
Definition EEPROM_CURR_POS_ADDR : Z := 4.
Definition EEPROM_FLAG_ADDR : Z := 6.
Definition EEPROM_FLAG_VALUE : Z := 0xABCD.
Definition DEFAULT_MIN_POS : Z := 0.
Definition DEFAULT_MAX_POS : Z := 1000.

(** Pins are kept symbolic: their numbers come from the board variant. *)
Inductive Pin : Set :=
| MOTOR_ENABLE_PIN | STEP_PIN | DIRECTION_PIN
| MOVE_UP_BUTTON | MOVE_DOWN_BUTTON | MODE_SWITCH_PIN
| LED_RED | LED_GREEN | SLEEP_PIN | LED_BUILTIN.

#[global] Instance Pin_eq_dec : EqDecision Pin.
Proof. solve_decision. Defined.

Definition HIGH : bool := true.
Definition LOW : bool := false.

Inductive Operation : Set :=
| WINDOW_COVERING_OPENING | WINDOW_COVERING_CLOSING | WINDOW_COVERING_STOPPED.

#[global] Instance Operation_eq_dec : EqDecision Operation.
Proof. solve_decision. Defined.

(** What the sketch does to the outside, in the order it does it. *)
Inductive Event : Set :=
| DigitalWrite (p : Pin) (level : bool)
| DelayMicroseconds (us : Z)
| Delay (ms : Z)
| EepromPut (addr v : Z)
| SetActualLiftRaw (v : Z)
| SetActualLiftPercent (v : Z)
| SetCurrentOperation (op : Operation).

#[global] Instance Event_eq_dec : EqDecision Event.
Proof. solve_decision. Defined.

(** What the sketch reads from the outside at its [k]-th read. *)
Record Env : Type := {
  env_pin : nat -> Pin -> bool;
  env_millis : nat -> Z;
  env_commissioned : nat -> bool;
  env_thread_connected : nat -> bool;
  env_online : nat -> bool;
  env_requested_raw : nat -> Z;
  env_requested_percent : nat -> Z
}.

(** ** The state *)

Record World : Type := mkWorld {
  (* globals *)
  minPos : Z;
  maxPos : Z;
  currentPos : Z;
  lastSaved : Z;
  lastMoveTime : Z;
  eepromSaved : bool;
  lastEepromSaveTime : Z;
  calibratingMin : bool;
  (* debounce arrays, indexed by pin *)
  lastChangeTime : Pin -> Z;
  lastRaw : Pin -> bool;
  stable : Pin -> bool;
  (* function statics *)
  holdTimer : Z;
  lastReqLiftRaw : Z;
  motorDisabled : bool;
  (* the outside *)
  eeprom : gmap Z Z;
  trace : list Event;
  tick : nat
}.

Definition set_minPos (v : Z) (w : World) : World :=
  mkWorld v (maxPos w) (currentPos w) (lastSaved w) (lastMoveTime w) (eepromSaved w)
    (lastEepromSaveTime w) (calibratingMin w) (lastChangeTime w) (lastRaw w) (stable w)
    (holdTimer w) (lastReqLiftRaw w) (motorDisabled w) (eeprom w) (trace w) (tick w).
Definition set_maxPos (v : Z) (w : World) : World :=
  mkWorld (minPos w) v (currentPos w) (lastSaved w) (lastMoveTime w) (eepromSaved w)
    (lastEepromSaveTime w) (calibratingMin w) (lastChangeTime w) (lastRaw w) (stable w)
    (holdTimer w) (lastReqLiftRaw w) (motorDisabled w) (eeprom w) (trace w) (tick w).
Definition set_currentPos (v : Z) (w : World) : World :=
  mkWorld (minPos w) (maxPos w) v (lastSaved w) (lastMoveTime w) (eepromSaved w)
    (lastEepromSaveTime w) (calibratingMin w) (lastChangeTime w) (lastRaw w) (stable w)
    (holdTimer w) (lastReqLiftRaw w) (motorDisabled w) (eeprom w) (trace w) (tick w).
Definition set_lastSaved (v : Z) (w : World) : World :=
  mkWorld (minPos w) (maxPos w) (currentPos w) v (lastMoveTime w) (eepromSaved w)
    (lastEepromSaveTime w) (calibratingMin w) (lastChangeTime w) (lastRaw w) (stable w)
    (holdTimer w) (lastReqLiftRaw w) (motorDisabled w) (eeprom w) (trace w) (tick w).
Definition set_lastMoveTime (v : Z) (w : World) : World :=
  mkWorld (minPos w) (maxPos w) (currentPos w) (lastSaved w) v (eepromSaved w)
    (lastEepromSaveTime w) (calibratingMin w) (lastChangeTime w) (lastRaw w) (stable w)
    (holdTimer w) (lastReqLiftRaw w) (motorDisabled w) (eeprom w) (trace w) (tick w).
Definition set_eepromSaved (v : bool) (w : World) : World :=
  mkWorld (minPos w) (maxPos w) (currentPos w) (lastSaved w) (lastMoveTime w) v
    (lastEepromSaveTime w) (calibratingMin w) (lastChangeTime w) (lastRaw w) (stable w)
    (holdTimer w) (lastReqLiftRaw w) (motorDisabled w) (eeprom w) (trace w) (tick w).
Definition set_lastEepromSaveTime (v : Z) (w : World) : World :=
  mkWorld (minPos w) (maxPos w) (currentPos w) (lastSaved w) (lastMoveTime w) (eepromSaved w)
    v (calibratingMin w) (lastChangeTime w) (lastRaw w) (stable w)
    (holdTimer w) (lastReqLiftRaw w) (motorDisabled w) (eeprom w) (trace w) (tick w).
Definition set_calibratingMin (v : bool) (w : World) : World :=
  mkWorld (minPos w) (maxPos w) (currentPos w) (lastSaved w) (lastMoveTime w) (eepromSaved w)
    (lastEepromSaveTime w) v (lastChangeTime w) (lastRaw w) (stable w)
    (holdTimer w) (lastReqLiftRaw w) (motorDisabled w) (eeprom w) (trace w) (tick w).
Definition set_lastChangeTime (v : Pin -> Z) (w : World) : World :=
  mkWorld (minPos w) (maxPos w) (currentPos w) (lastSaved w) (lastMoveTime w) (eepromSaved w)
    (lastEepromSaveTime w) (calibratingMin w) v (lastRaw w) (stable w)
    (holdTimer w) (lastReqLiftRaw w) (motorDisabled w) (eeprom w) (trace w) (tick w).
Definition set_lastRaw (v : Pin -> bool) (w : World) : World :=
  mkWorld (minPos w) (maxPos w) (currentPos w) (lastSaved w) (lastMoveTime w) (eepromSaved w)
    (lastEepromSaveTime w) (calibratingMin w) (lastChangeTime w) v (stable w)
    (holdTimer w) (lastReqLiftRaw w) (motorDisabled w) (eeprom w) (trace w) (tick w).
Definition set_stable (v : Pin -> bool) (w : World) : World :=
  mkWorld (minPos w) (maxPos w) (currentPos w) (lastSaved w) (lastMoveTime w) (eepromSaved w)
    (lastEepromSaveTime w) (calibratingMin w) (lastChangeTime w) (lastRaw w) v
    (holdTimer w) (lastReqLiftRaw w) (motorDisabled w) (eeprom w) (trace w) (tick w).
Definition set_holdTimer (v : Z) (w : World) : World :=
  mkWorld (minPos w) (maxPos w) (currentPos w) (lastSaved w) (lastMoveTime w) (eepromSaved w)
    (lastEepromSaveTime w) (calibratingMin w) (lastChangeTime w) (lastRaw w) (stable w)
    v (lastReqLiftRaw w) (motorDisabled w) (eeprom w) (trace w) (tick w).
Definition set_lastReqLiftRaw (v : Z) (w : World) : World :=
  mkWorld (minPos w) (maxPos w) (currentPos w) (lastSaved w) (lastMoveTime w) (eepromSaved w)
    (lastEepromSaveTime w) (calibratingMin w) (lastChangeTime w) (lastRaw w) (stable w)
    (holdTimer w) v (motorDisabled w) (eeprom w) (trace w) (tick w).
Definition set_motorDisabled (v : bool) (w : World) : World :=
  mkWorld (minPos w) (maxPos w) (currentPos w) (lastSaved w) (lastMoveTime w) (eepromSaved w)
    (lastEepromSaveTime w) (calibratingMin w) (lastChangeTime w) (lastRaw w) (stable w)
    (holdTimer w) (lastReqLiftRaw w) v (eeprom w) (trace w) (tick w).
Definition set_eeprom (v : gmap Z Z) (w : World) : World :=
  mkWorld (minPos w) (maxPos w) (currentPos w) (lastSaved w) (lastMoveTime w) (eepromSaved w)
    (lastEepromSaveTime w) (calibratingMin w) (lastChangeTime w) (lastRaw w) (stable w)
    (holdTimer w) (lastReqLiftRaw w) (motorDisabled w) v (trace w) (tick w).
Definition set_trace (v : list Event) (w : World) : World :=
  mkWorld (minPos w) (maxPos w) (currentPos w) (lastSaved w) (lastMoveTime w) (eepromSaved w)
    (lastEepromSaveTime w) (calibratingMin w) (lastChangeTime w) (lastRaw w) (stable w)
    (holdTimer w) (lastReqLiftRaw w) (motorDisabled w) (eeprom w) v (tick w).
Definition set_tick (v : nat) (w : World) : World :=
  mkWorld (minPos w) (maxPos w) (currentPos w) (lastSaved w) (lastMoveTime w) (eepromSaved w)
    (lastEepromSaveTime w) (calibratingMin w) (lastChangeTime w) (lastRaw w) (stable w)
    (holdTimer w) (lastReqLiftRaw w) (motorDisabled w) (eeprom w) (trace w) v.

(** Writing one cell of an array indexed by pin. *)
Definition upd {A : Type} (f : Pin -> A) (p : Pin) (v : A) : Pin -> A :=
  fun q => if decide (q = p) then v else f q.

(** ** EEPROM: a byte store; an erased cell reads [0xFF] *)

Definition eeprom_byte (m : gmap Z Z) (a : Z) : Z := default 255 (m !! a).

(** [EEPROM.get] and [EEPROM.put] of a [uint16_t], little endian. *)
Definition eeprom_get16 (m : gmap Z Z) (a : Z) : Z :=
  eeprom_byte m a + 256 * eeprom_byte m (a + 1).
Definition eeprom_put16 (a v : Z) (m : gmap Z Z) : gmap Z Z :=
  <[a + 1 := v / 256]> (<[a := v mod 256]> m).

(** ** The monad: state, faults *)

Inductive fault : Set :=
| DivisionByZero   (* [map] called with [in_min = in_max] *)
| OutOfFuel.       (* a loop of the model ran out of its iteration bound *)

Inductive outcome (A : Type) : Type :=
| Done (a : A) (w : World)
| Fault (f : fault).
Arguments Done {A} a w.
Arguments Fault {A} f.

Definition M (A : Type) : Type := World -> outcome A.

Definition ret {A : Type} (a : A) : M A := fun w => Done a w.
Definition bind {A B : Type} (c : M A) (k : A -> M B) : M B :=
  fun w => match c w with
           | Done a w' => k a w'
           | Fault f => Fault f
           end.

Declare Scope sketch_scope.
Delimit Scope sketch_scope with sketch.
Notation "x <- c ;; k" := (bind c (fun x => k))
  (at level 100, c at next level, k at level 200, right associativity) : sketch_scope.
Notation "c ;; k" := (bind c (fun _ => k))
  (at level 100, k at level 200, right associativity) : sketch_scope.
Local Open Scope sketch_scope.

Definition gets {A : Type} (f : World -> A) : M A := fun w => Done (f w) w.
Definition modify (f : World -> World) : M unit := fun w => Done tt (f w).
Definition emit (e : Event) : M unit := modify (fun w => set_trace (trace w ++ [e]) w).
Definition raise {A : Type} (f : fault) : M A := fun _ => Fault f.

(** [for (int i = 0; i < n; i++) body] *)
Fixpoint repeat_n (n : nat) (body : M unit) : M unit :=
  match n with
  | O => ret tt
  | S n' => body ;; repeat_n n' body
  end.

(** Outputs. *)
Definition digitalWrite (p : Pin) (level : bool) : M unit := emit (DigitalWrite p level).
Definition delayMicroseconds (us : Z) : M unit := emit (DelayMicroseconds us).
Definition delay (ms : Z) : M unit := emit (Delay ms).

Definition EEPROM_put (a v : Z) : M unit :=
  modify (fun w => set_eeprom (eeprom_put16 a v (eeprom w)) w) ;; emit (EepromPut a v).
Definition EEPROM_get (a : Z) : M Z := gets (fun w => eeprom_get16 (eeprom w) a).

Definition set_actual_lift_position_raw (v : Z) : M unit := emit (SetActualLiftRaw v).
Definition set_actual_lift_position_percent (v : Z) : M unit := emit (SetActualLiftPercent v).
Definition set_current_operation (op : Operation) : M unit := emit (SetCurrentOperation op).

(** [map] with its fault. *)
Definition map_ (x in_min in_max out_min out_max : Z) : M Z :=
  match Arduino.map x in_min in_max out_min out_max with
  | Some v => ret v
  | None => raise DivisionByZero
  end.

(** A loop whose iteration count depends on the state runs on fuel. *)
Definition MAX_ITERATIONS : nat := Z.to_nat 65536.

(** ** The sketch *)

Section Sketch.

Variable env : Env.

(** Inputs: each read takes the oracle's value at the current tick. *)
Definition observe {A : Type} (f : Env -> nat -> A) : M A :=
  fun w => Done (f env (tick w)) (set_tick (S (tick w)) w).

Definition digitalRead (p : Pin) : M bool := observe (fun e k => env_pin e k p).
Definition millis : M Z := observe (fun e k => Arduino.to_u32 (env_millis e k)).
Definition isDeviceCommissioned : M bool := observe env_commissioned.
Definition isDeviceThreadConnected : M bool := observe env_thread_connected.
Definition is_online : M bool := observe env_online.
Definition get_requested_lift_position_raw : M Z :=
  observe (fun e k => Arduino.to_u16 (env_requested_raw e k)).
Definition get_requested_lift_position_percent : M Z :=
  observe (fun e k => Arduino.to_i32 (env_requested_percent e k)).

(** [c1 && c2] and [!c] on calls with effects. *)
Definition and_then (c1 c2 : M bool) : M bool :=
  b <- c1 ;; if b then c2 else ret false.
Definition not_ (c : M bool) : M bool := b <- c ;; ret (negb b).

(** [while (!cond()) { delay(200); }] *)
Fixpoint wait_until (fuel : nat) (cond : M bool) : M unit :=
  b <- cond ;;
  if b then ret tt
  else match fuel with
       | O => raise OutOfFuel
       | S fuel' => delay 200 ;; wait_until fuel' cond
       end.

Definition wakeDriver : M unit :=
  digitalWrite SLEEP_PIN HIGH ;; digitalWrite MOTOR_ENABLE_PIN LOW.
Definition disableMotor : M unit := digitalWrite MOTOR_ENABLE_PIN HIGH.
Definition sleepDriver : M unit := digitalWrite SLEEP_PIN LOW.

(** The guard of [move_stepper_single_step]: the two early returns. *)
Definition at_limit (moveUp ignoreLimits : bool) (w : World) : bool :=
  negb ignoreLimits &&
  ((moveUp && (currentPos w >=? maxPos w)) || (negb moveUp && (currentPos w <=? minPos w))).

Definition move_stepper_single_step (moveUp ignoreLimits : bool) (stepDelay : Z) : M unit :=
  blocked <- gets (at_limit moveUp ignoreLimits) ;;
  if blocked then ret tt
  else
    wakeDriver ;;
    digitalWrite DIRECTION_PIN (if moveUp then HIGH else LOW) ;;
    delayMicroseconds 2 ;;
    digitalWrite STEP_PIN HIGH ;;
    delayMicroseconds stepDelay ;;
    digitalWrite STEP_PIN LOW ;;
    delayMicroseconds stepDelay ;;
    modify (fun w => set_currentPos
              (Arduino.to_u16 (if moveUp then currentPos w + 1 else currentPos w - 1)) w) ;;
    t <- millis ;;
    modify (set_lastMoveTime t) ;;
    cur <- gets currentPos ;;
    set_actual_lift_position_raw cur ;;
    mn <- gets minPos ;;
    mx <- gets maxPos ;;
    percent <- map_ cur mn mx 0 100 ;;
    set_actual_lift_position_percent (Arduino.to_u16 percent).

(** The body of the loop of [move_stepper_to_position]. *)
Definition matter_step (dir : Z) : M unit :=
  digitalWrite MOTOR_ENABLE_PIN LOW ;;
  digitalWrite STEP_PIN HIGH ;;
  delayMicroseconds STEP_DELAY_MATTER ;;
  digitalWrite STEP_PIN LOW ;;
  delayMicroseconds STEP_DELAY_MATTER ;;
  modify (fun w => set_currentPos (Arduino.to_u16 (currentPos w + dir)) w) ;;
  t <- millis ;;
  modify (set_lastMoveTime t) ;;
  cur <- gets currentPos ;;
  set_actual_lift_position_raw cur.

(** [while (currentPos != newPos) { ... }] *)
Fixpoint step_until (fuel : nat) (dir newPos : Z) : M unit :=
  cur <- gets currentPos ;;
  if cur =? newPos then ret tt
  else match fuel with
       | O => raise OutOfFuel
       | S fuel' => matter_step dir ;; step_until fuel' dir newPos
       end.

(** [int dir = (currentPos < newPos) ? 1 : -1;] *)
Definition direction (cur newPos : Z) : Z := if cur <? newPos then 1 else -1.

Definition move_stepper_to_position (newPos : Z) : M unit :=
  wakeDriver ;;
  cur <- gets currentPos ;;
  let dir := direction cur newPos in
  digitalWrite DIRECTION_PIN (if dir >? 0 then HIGH else LOW) ;;
  step_until MAX_ITERATIONS dir newPos ;;
  (* the percentage printed by the closing log line *)
  cur' <- gets currentPos ;;
  mn <- gets minPos ;;
  mx <- gets maxPos ;;
  _ <- map_ cur' mn mx 0 100 ;;
  ret tt.

Definition flash_both_leds (times : nat) : M unit :=
  repeat_n times
    (digitalWrite LED_GREEN HIGH ;;
     digitalWrite LED_RED HIGH ;;
     delay 200 ;;
     digitalWrite LED_GREEN LOW ;;
     digitalWrite LED_RED LOW ;;
     delay 200).

Definition is_button_pressed (pin : Pin) : M bool :=
  sw <- digitalRead MODE_SWITCH_PIN ;;
  if negb sw then ret false
  else
    level <- digitalRead pin ;;
    let raw := negb level in
    now <- millis ;;
    lr <- gets (fun w => lastRaw w pin) ;;
    (if negb (Bool.eqb raw lr)
     then modify (fun w => set_lastChangeTime (upd (lastChangeTime w) pin now)
                             (set_lastRaw (upd (lastRaw w) pin raw) w))
     else ret tt) ;;
    lc <- gets (fun w => lastChangeTime w pin) ;;
    (if Arduino.to_u32 (now - lc) >? DEBOUNCE_MS
     then modify (fun w => set_stable (upd (stable w) pin raw) w)
     else ret tt) ;;
    gets (fun w => stable w pin).

Definition are_both_pressed : M bool :=
  and_then (is_button_pressed MOVE_UP_BUTTON) (is_button_pressed MOVE_DOWN_BUTTON).

Definition are_both_released : M bool :=
  and_then (not_ (is_button_pressed MOVE_UP_BUTTON)) (not_ (is_button_pressed MOVE_DOWN_BUTTON)).

(** The single-button branches of [run_calibration_mode]; the source has
    them twice, under [calibratingMin] and under its negation, differing
    in the log line only. *)
Definition single_button_moves : M unit :=
  up_only <- and_then (is_button_pressed MOVE_UP_BUTTON)
                      (not_ (is_button_pressed MOVE_DOWN_BUTTON)) ;;
  if up_only
  then repeat_n (Z.to_nat STEPS_PER_PRESS)
         (move_stepper_single_step true true STEP_DELAY_CALIBRATION)
  else
    down_only <- and_then (is_button_pressed MOVE_DOWN_BUTTON)
                          (not_ (is_button_pressed MOVE_UP_BUTTON)) ;;
    if down_only
    then repeat_n (Z.to_nat STEPS_PER_PRESS)
           (move_stepper_single_step false true STEP_DELAY_CALIBRATION)
    else ret tt.

(** The body run when the hold threshold is reached: the boundary is
    stored and the calibration state toggles. *)
Definition commit_boundary : M unit :=
  cm <- gets calibratingMin ;;
  if cm then
    modify (fun w => set_minPos (currentPos w) w) ;;
    mn <- gets minPos ;;
    EEPROM_put EEPROM_MIN_POS_ADDR mn ;;
    flash_both_leds 4 ;;
    modify (set_calibratingMin false)
  else
    cur <- gets currentPos ;;
    mn <- gets minPos ;;
    (if cur <? mn
     then modify (fun w => let tmp := minPos w in
                           set_maxPos tmp (set_minPos (currentPos w) w))
     else modify (fun w => set_maxPos (currentPos w) w)) ;;
    mn' <- gets minPos ;;
    EEPROM_put EEPROM_MIN_POS_ADDR mn' ;;
    mx' <- gets maxPos ;;
    EEPROM_put EEPROM_MAX_POS_ADDR mx' ;;
    cur' <- gets currentPos ;;
    EEPROM_put EEPROM_CURR_POS_ADDR cur' ;;
    flash_both_leds 3 ;;
    modify (set_calibratingMin true).

(** The both-buttons part of [run_calibration_mode], given the result
    of [are_both_pressed]. *)
Definition hold_logic (both : bool) : M unit :=
  if both then
    h <- gets holdTimer ;;
    (if h =? 0 then t <- millis ;; modify (set_holdTimer t) else ret tt) ;;
    t' <- millis ;;
    h' <- gets holdTimer ;;
    if Arduino.to_u32 (t' - h') >=? HOLD_TIMER_THRESHOLD
    then commit_boundary ;; modify (set_holdTimer 0)
    else ret tt
  else modify (set_holdTimer 0).

Definition run_calibration_mode : M unit :=
  sw <- digitalRead MODE_SWITCH_PIN ;;
  if negb sw then ret tt
  else
    cm <- gets calibratingMin ;;
    (if cm then single_button_moves else single_button_moves) ;;
    both <- are_both_pressed ;;
    hold_logic both.

Definition run_matter_mode : M unit :=
  reqLiftRaw <- get_requested_lift_position_raw ;;
  last <- gets lastReqLiftRaw ;;
  if reqLiftRaw =? last then ret tt
  else
    reqPercent <- get_requested_lift_position_percent ;;
    mn <- gets minPos ;;
    mx <- gets maxPos ;;
    target <- map_ reqPercent 0 100 mn mx ;;
    let targetRaw := Arduino.to_u16 target in
    cur <- gets currentPos ;;
    (if targetRaw >? cur
     then set_current_operation WINDOW_COVERING_OPENING
     else set_current_operation WINDOW_COVERING_CLOSING) ;;
    digitalWrite LED_RED HIGH ;;
    move_stepper_to_position targetRaw ;;
    digitalWrite LED_RED LOW ;;
    set_actual_lift_position_raw reqLiftRaw ;;
    set_current_operation WINDOW_COVERING_STOPPED ;;
    (* the percentage printed by the closing log line *)
    cur' <- gets currentPos ;;
    mn' <- gets minPos ;;
    mx' <- gets maxPos ;;
    _ <- map_ cur' mn' mx' 0 100 ;;
    modify (set_lastReqLiftRaw reqLiftRaw).

Definition updateLEDs : M unit :=
  sw <- digitalRead MODE_SWITCH_PIN ;;
  if sw then
    cm <- gets calibratingMin ;;
    if cm
    then digitalWrite LED_GREEN HIGH ;; digitalWrite LED_RED LOW
    else digitalWrite LED_GREEN LOW ;; digitalWrite LED_RED HIGH
  else digitalWrite LED_GREEN LOW ;; digitalWrite LED_RED LOW.

(** The innermost block of [updateSleepAndAutoSave]. *)
Definition auto_save : M unit :=
  ls <- gets lastSaved ;;
  cur <- gets currentPos ;;
  if negb (ls =? cur) then
    EEPROM_put EEPROM_CURR_POS_ADDR cur ;;
    modify (set_lastSaved cur) ;;
    modify (set_eepromSaved true) ;;
    t <- millis ;;
    modify (set_lastEepromSaveTime t)
  else ret tt.

Definition updateSleepAndAutoSave : M unit :=
  t1 <- millis ;;
  lm <- gets lastMoveTime ;;
  (if Arduino.to_u32 (t1 - lm) >=? MOTOR_DISABLE_INTERVAL then
     md <- gets motorDisabled ;;
     if negb md then disableMotor ;; modify (set_motorDisabled true) else ret tt
   else modify (set_motorDisabled false)) ;;
  t2 <- millis ;;
  lm' <- gets lastMoveTime ;;
  if Arduino.to_u32 (t2 - lm') >=? AUTO_SAVE_INTERVAL then
    due <- and_then (saved <- gets eepromSaved ;; ret (negb saved))
                    (t3 <- millis ;;
                     lt <- gets lastEepromSaveTime ;;
                     ret (Arduino.to_u32 (t3 - lt) >=? AUTO_SAVE_INTERVAL)) ;;
    (if due then auto_save else ret tt) ;;
    sleepDriver
  else digitalWrite SLEEP_PIN HIGH.

Definition initialize_eeprom : M unit :=
  flagVal <- EEPROM_get EEPROM_FLAG_ADDR ;;
  if negb (flagVal =? EEPROM_FLAG_VALUE) then
    EEPROM_put EEPROM_MIN_POS_ADDR (Arduino.to_u16 DEFAULT_MIN_POS) ;;
    EEPROM_put EEPROM_MAX_POS_ADDR (Arduino.to_u16 DEFAULT_MAX_POS) ;;
    let mid := Arduino.to_u16 (Z.quot (DEFAULT_MIN_POS + DEFAULT_MAX_POS) 2) in
    EEPROM_put EEPROM_CURR_POS_ADDR mid ;;
    EEPROM_put EEPROM_FLAG_ADDR (Arduino.to_u16 EEPROM_FLAG_VALUE)
  else ret tt.

Definition load_positions_from_eeprom : M unit :=
  mn <- EEPROM_get EEPROM_MIN_POS_ADDR ;;
  modify (set_minPos mn) ;;
  mx <- EEPROM_get EEPROM_MAX_POS_ADDR ;;
  modify (set_maxPos mx) ;;
  cur <- EEPROM_get EEPROM_CURR_POS_ADDR ;;
  modify (set_currentPos cur).

(** [setup]; pin modes and the start of the serial port and of the
    Matter stack are configuration and leave no mark on the model. *)
Definition setup (fuel : nat) : M unit :=
  disableMotor ;;
  sleepDriver ;;
  digitalWrite LED_RED HIGH ;;
  digitalWrite LED_GREEN LOW ;;
  digitalWrite LED_BUILTIN LOW ;;
  _ <- isDeviceCommissioned ;;
  wait_until fuel isDeviceCommissioned ;;
  wait_until fuel isDeviceThreadConnected ;;
  wait_until fuel is_online ;;
  digitalWrite LED_RED LOW ;;
  initialize_eeprom ;;
  load_positions_from_eeprom ;;
  modify (fun w => set_lastSaved (currentPos w) w) ;;
  cur <- gets currentPos ;;
  mn <- gets minPos ;;
  mx <- gets maxPos ;;
  initPercent <- map_ cur mn mx 0 100 ;;
  set_actual_lift_position_percent (Arduino.to_u16 initPercent) ;;
  set_actual_lift_position_raw cur.

Definition loop : M unit :=
  updateLEDs ;;
  updateSleepAndAutoSave ;;
  sw <- digitalRead MODE_SWITCH_PIN ;;
  if sw then run_calibration_mode else run_matter_mode.

(** [n] turns of [loop]. *)
Definition loops (n : nat) : M unit := repeat_n n loop.

End Sketch.

(** The globals and statics as their initialisers leave them, over the
    EEPROM contents found at power-on. *)
Definition power_on (e : gmap Z Z) : World :=
  {| minPos := 0; maxPos := 0; currentPos := 0; lastSaved := 0;
     lastMoveTime := 0; eepromSaved := false; lastEepromSaveTime := 0;
     calibratingMin := true;
     lastChangeTime := fun _ => 0; lastRaw := fun _ => false; stable := fun _ => false;
     holdTimer := 0; lastReqLiftRaw := 0; motorDisabled := false;
     eeprom := e; trace := []; tick := O |}.

Arguments Arduino.to_u16 : simpl never.
Arguments Arduino.to_u32 : simpl never.
Arguments Arduino.to_i32 : simpl never.
Arguments eeprom_put16 : simpl never.
Arguments eeprom_get16 : simpl never.

(** ** Notions used by the statements *)

Definition defaults_stored (m : gmap Z Z) : Prop :=
  eeprom_get16 m EEPROM_MIN_POS_ADDR = 0 /\
  eeprom_get16 m EEPROM_MAX_POS_ADDR = 1000 /\
  eeprom_get16 m EEPROM_CURR_POS_ADDR = 500 /\
  eeprom_get16 m EEPROM_FLAG_ADDR = EEPROM_FLAG_VALUE.

(** [keeps R c]: whenever [c] returns, the states before and after are
    related by [R]. *)
Definition keeps {A : Type} (R : World -> World -> Prop) (c : M A) : Prop :=
  forall w a w', c w = Done a w' -> R w w'.

(** The boundaries, the calibration state and the store are as before. *)
Definition no_commit (w w' : World) : Prop :=
  minPos w' = minPos w /\ maxPos w' = maxPos w /\
  calibratingMin w' = calibratingMin w /\ eeprom w' = eeprom w.

(** Only the debounce arrays and the tick differ. *)
Definition debounce_only (w w' : World) : Prop :=
  w' = set_tick (tick w')
         (set_stable (stable w')
            (set_lastRaw (lastRaw w')
               (set_lastChangeTime (lastChangeTime w') w))).

(** Both buttons read pressed, and the switch reads calibration, at
    every read from the [k0]-th on. *)
Definition both_held (env : Env) (k0 : nat) : Prop :=
  forall k, (k0 <= k)%nat ->
    env_pin env k MODE_SWITCH_PIN = HIGH /\
    env_pin env k MOVE_UP_BUTTON = LOW /\
    env_pin env k MOVE_DOWN_BUTTON = LOW.

(** The timer value the threshold test of [hold_logic] compares with: the
    stored one, or the clock just read when the stored one was zero. *)
Definition armed_timer (env : Env) (w : World) : Z :=
  if holdTimer w =? 0 then Arduino.to_u32 (env_millis env (tick w)) else holdTimer w.

(** [millis() - holdTimer] as that test computes it. *)
Definition hold_elapsed (env : Env) (w : World) : Z :=
  let k := if holdTimer w =? 0 then S (tick w) else tick w in
  Arduino.to_u32 (Arduino.to_u32 (env_millis env k) - armed_timer env w).

(** The step pulses of a trace: the rising edges on the step pin. *)
Definition step_pulses (tr : list Event) : nat :=
  count_occ Event_eq_dec tr (DigitalWrite STEP_PIN HIGH).

Arguments step_pulses : simpl never.

(** What the loop leaves when it has made [n] turns and stands on
    [newPos]. *)
Definition reached (newPos : Z) (n : nat) (w w' : World) : Prop :=
  currentPos w' = newPos /\
  step_pulses (trace w') = (step_pulses (trace w) + n)%nat /\
  tick w' = (tick w + n)%nat /\
  minPos w' = minPos w /\ maxPos w' = maxPos w /\
  lastReqLiftRaw w' = lastReqLiftRaw w.

(** The number of turns between two positions. *)
Definition distance (cur newPos : Z) : nat := Z.to_nat (Z.abs (newPos - cur)).

(** The requested raw value the handler reads in [w]. *)
Definition requested_raw (env : Env) (w : World) : Z :=
  Arduino.to_u16 (env_requested_raw env (tick w)).

(** The static of the handler is as before. *)
Definition same_request (w w' : World) : Prop := lastReqLiftRaw w' = lastReqLiftRaw w.

(** The percentage [move_stepper_single_step] computes for a position:
    [uint16_t percent = map(currentPos, minPos, maxPos, 0, 100)]. *)
Definition percent (cur mn mx : Z) : option Z :=
  Arduino.to_u16 <$> Arduino.map cur mn mx 0 100.

(** The percentage as the specification words it,
    [round((currentPos - minPos) / (maxPos - minPos) * 100)], rounding to
    the nearest integer, halves upwards. *)
Definition round_percent (cur mn mx : Z) : Z :=
  (2 * ((cur - mn) * 100) + (mx - mn)) / (2 * (mx - mn)).

(** The position a step moves to. *)
Definition next_pos (moveUp : bool) (cur : Z) : Z :=
  Arduino.to_u16 (if moveUp then cur + 1 else cur - 1).

(** What a step that is not refused outputs before the percentage. *)
Definition step_outputs (moveUp : bool) (stepDelay cur' : Z) : list Event :=
  [ DigitalWrite SLEEP_PIN HIGH; DigitalWrite MOTOR_ENABLE_PIN LOW;
    DigitalWrite DIRECTION_PIN (if moveUp then HIGH else LOW);
    DelayMicroseconds 2;
    DigitalWrite STEP_PIN HIGH; DelayMicroseconds stepDelay;
    DigitalWrite STEP_PIN LOW; DelayMicroseconds stepDelay;
    SetActualLiftRaw cur' ].

(** The writes to the store in a trace. *)
Definition is_eeprom_put (e : Event) : bool :=
  match e with EepromPut _ _ => true | _ => false end.
Definition eeprom_puts (tr : list Event) : list Event := List.filter is_eeprom_put tr.

(** The clock reads of [updateSleepAndAutoSave] made in [w]. *)
Definition idle_time (env : Env) (w : World) : Z :=
  Arduino.to_u32 (Arduino.to_u32 (env_millis env (S (tick w))) - lastMoveTime w).
Definition time_since_save (env : Env) (w : World) : Z :=
  Arduino.to_u32 (Arduino.to_u32 (env_millis env (S (S (tick w)))) - lastEepromSaveTime w).

(** ** Concrete environments and states *)

(** An environment in which nothing happens: calibration mode, buttons
    released, the clock at zero, no request. *)
Definition quiet_env : Env :=
  {| env_pin := fun _ _ => HIGH;
     env_millis := fun _ => 0;
     env_commissioned := fun _ => true;
     env_thread_connected := fun _ => true;
     env_online := fun _ => true;
     env_requested_raw := fun _ => 0;
     env_requested_percent := fun _ => 0 |}.

(** The power-on state with the three positions set. *)
Definition at_positions (mn mx cur : Z) : World :=
  set_currentPos cur (set_maxPos mx (set_minPos mn (power_on ∅))).

(** A remote-control session: the mode switch reads LOW, a request for 51
    percent is pending at boot and is replaced by one for 25 percent after
    the first save; the clock stands at 1 s during the first move, at 400 s
    and 401 s around the second, and at 1000 s afterwards. *)
Definition remote_env : Env :=
  {| env_pin := fun _ _ => LOW;
     env_millis := fun k =>
       if (k <? 20)%nat then 1000
       else if (k <? 33)%nat then 400000
       else if (k <? 293)%nat then 401000
       else 1000000;
     env_commissioned := fun _ => true;
     env_thread_connected := fun _ => true;
     env_online := fun _ => true;
     env_requested_raw := fun k => if (k <? 27)%nat then 5100 else 2500;
     env_requested_percent := fun k => if (k <? 27)%nat then 51 else 25 |}.

(** The state of that session when [updateSleepAndAutoSave] is called in
    the fourth turn of [loop]: [setup], three turns, [updateLEDs]. *)
Definition fourth_turn : World :=
  match (setup remote_env 0 ;; loops remote_env 3 ;; updateLEDs remote_env) (power_on ∅) with
  | Done _ w => w
  | Fault _ => power_on ∅
  end.

(** Both buttons down in calibration mode, the clock at 5 s. *)
Definition held_env : Env :=
  {| env_pin := fun _ p =>
       match p with
       | MOVE_UP_BUTTON | MOVE_DOWN_BUTTON => LOW
       | _ => HIGH
       end;
     env_millis := fun _ => 5000;
     env_commissioned := fun _ => true;
     env_thread_connected := fun _ => true;
     env_online := fun _ => true;
     env_requested_raw := fun _ => 0;
     env_requested_percent := fun _ => 0 |}.

(** A state in which both buttons are debounced as pressed and the hold
    timer was started at [timer]. *)
Definition holding (timer : Z) (w : World) : World :=
  set_holdTimer timer (set_stable (fun _ => true) (set_lastRaw (fun _ => true) w)).

(** The state [setup] leaves on an erased store. *)
Definition booted : World :=
  match setup quiet_env 0 (power_on ∅) with
  | Done _ w => w
  | Fault _ => power_on ∅
  end.

(** A calibration session that is left and entered again.  Both buttons
    are down from power-on and are let go at 1.6 s; the mode switch is on
    calibration, goes to remote control at 1.6 s for two turns of [loop],
    and is back on calibration at 61.6 s.  The clock reads 1.0 s in the
    first turn, 1.1 s in the second, 1.6 s and 1.7 s in the two remote
    turns, and 61.6 s from then on. *)
Definition reentry_env : Env :=
  {| env_pin := fun k p =>
       match p with
       | MODE_SWITCH_PIN => if (k <? 43)%nat then HIGH else if (k <? 53)%nat then LOW else HIGH
       | MOVE_UP_BUTTON | MOVE_DOWN_BUTTON => if (k <? 48)%nat then LOW else HIGH
       | _ => HIGH
       end;
     env_millis := fun k =>
       if (k <? 18)%nat then 1000
       else if (k <? 43)%nat then 1100
       else if (k <? 48)%nat then 1600
       else if (k <? 53)%nat then 1700
       else 61600;
     env_commissioned := fun _ => true;
     env_thread_connected := fun _ => true;
     env_online := fun _ => true;
     env_requested_raw := fun _ => 0;
     env_requested_percent := fun _ => 0 |}.

(** The state of that session after [setup] and four turns of [loop], when
    calibration mode is entered again. *)
Definition before_reentry : World :=
  match (setup reentry_env 0 ;; loops reentry_env 4) (power_on ∅) with
  | Done _ w => w
  | Fault _ => power_on ∅
  end.

(** A calibration session in which both buttons are down at every read.
    The clock reads 1000 ms when the first turn of [loop] first reads the
    upper button, 1001 ms when it first reads the lower one, and 1071 ms
    throughout the second turn. *)
Definition onset_env : Env :=
  {| env_pin := fun _ p =>
       match p with
       | MOVE_UP_BUTTON | MOVE_DOWN_BUTTON => LOW
       | _ => HIGH
       end;
     env_millis := fun k =>
       if (k <? 12)%nat then 1000 else if (k <? 18)%nat then 1001 else 1071;
     env_commissioned := fun _ => true;
     env_thread_connected := fun _ => true;
     env_online := fun _ => true;
     env_requested_raw := fun _ => 0;
     env_requested_percent := fun _ => 0 |}.

(** The state of that session after [setup] and one turn of [loop]. *)
Definition onset_first_turn : World :=
  match (setup onset_env 0 ;; loop onset_env) (power_on ∅) with
  | Done _ w => w
  | Fault _ => power_on ∅
  end.

(** ** Further notions *)

(** The values of a [uint16_t]. *)
Definition u16 (z : Z) : Prop := 0 <= z < 65536.

(** The motor-stage disable writes of a trace. *)
Definition motor_disables (tr : list Event) : nat :=
  count_occ Event_eq_dec tr (DigitalWrite MOTOR_ENABLE_PIN HIGH).

Arguments motor_disables : simpl never.

(** The first clock read of [updateSleepAndAutoSave] made in [w], less the
    time of the last move. *)
Definition idle_at_entry (env : Env) (w : World) : Z :=
  Arduino.to_u32 (Arduino.to_u32 (env_millis env (tick w)) - lastMoveTime w).

(** One button is down and the other up, and the switch reads calibration,
    at every read from the [k0]-th on. *)
Definition one_held (env : Env) (up : bool) (k0 : nat) : Prop :=
  forall k, (k0 <= k)%nat ->
    env_pin env k MODE_SWITCH_PIN = HIGH /\
    env_pin env k MOVE_UP_BUTTON = negb up /\
    env_pin env k MOVE_DOWN_BUTTON = up.

(** The up button down, the down button up, in calibration mode. *)
Definition up_env : Env :=
  {| env_pin := fun _ p =>
       match p with
       | MOVE_UP_BUTTON => LOW
       | _ => HIGH
       end;
     env_millis := fun _ => 5000;
     env_commissioned := fun _ => true;
     env_thread_connected := fun _ => true;
     env_online := fun _ => true;
     env_requested_raw := fun _ => 0;
     env_requested_percent := fun _ => 0 |}.

(** The up button debounced as pressed, the position two steps below
    [maxPos]. *)
Definition pressing_up : World :=
  set_stable (fun p => match p with MOVE_UP_BUTTON => true | _ => false end)
    (at_positions 0 1000 998).

(** The four cells of the stored record. *)
Definition stored_min (m : gmap Z Z) : Z := eeprom_get16 m EEPROM_MIN_POS_ADDR.
Definition stored_max (m : gmap Z Z) : Z := eeprom_get16 m EEPROM_MAX_POS_ADDR.
Definition stored_current (m : gmap Z Z) : Z := eeprom_get16 m EEPROM_CURR_POS_ADDR.
Definition stored_flag (m : gmap Z Z) : Z := eeprom_get16 m EEPROM_FLAG_ADDR.

(** A state calibrating MAX, with a MIN boundary already stored. *)
Definition calibrating_max (mn cur : Z) : World :=
  set_calibratingMin false (at_positions mn 1000 cur).

(** Only the position, the time of the last move, the trace and the tick
    differ. *)
Definition motion_only (w w' : World) : Prop :=
  w' = set_trace (trace w')
         (set_tick (tick w')
            (set_lastMoveTime (lastMoveTime w')
               (set_currentPos (currentPos w') w))).

(** The percentage the handler reads in [w], after the raw value. *)
Definition requested_percent (env : Env) (w : World) : Z :=
  Arduino.to_i32 (env_requested_percent env (S (tick w))).

(** The target of a request: [map(reqPercent, 0, 100, minPos, maxPos)]. *)
Definition target_of (p mn mx : Z) : Z := mn + p * (mx - mn) / 100.

(** The operation state reported when a move to [target] starts. *)
Definition operation_towards (cur target : Z) : Operation :=
  if target >? cur then WINDOW_COVERING_OPENING else WINDOW_COVERING_CLOSING.

(** The state [setup] leaves in the session [remote_env], on an erased
    store. *)
Definition remote_booted : World :=
  match setup remote_env 0 (power_on ∅) with
  | Done _ w => w
  | Fault _ => power_on ∅
  end.

(** A request for 150 percent. *)
Definition overshoot_env : Env :=
  {| env_pin := fun _ _ => LOW;
     env_millis := fun _ => 0;
     env_commissioned := fun _ => true;
     env_thread_connected := fun _ => true;
     env_online := fun _ => true;
     env_requested_raw := fun _ => 15000;
     env_requested_percent := fun _ => 150 |}.

(** The boundaries and the calibration state, in memory and in the store,
    are as before. *)
Definition boundaries_kept (w w' : World) : Prop :=
  minPos w' = minPos w /\ maxPos w' = maxPos w /\
  calibratingMin w' = calibratingMin w /\ holdTimer w' = holdTimer w /\
  stored_min (eeprom w') = stored_min (eeprom w) /\
  stored_max (eeprom w') = stored_max (eeprom w) /\
  stored_flag (eeprom w') = stored_flag (eeprom w).

(** The level and the clock [is_button_pressed] reads in [w], when the
    switch reads calibration. *)
Definition raw_pressed (env : Env) (pin : Pin) (w : World) : bool :=
  negb (env_pin env (S (tick w)) pin).
Definition debounce_clock (env : Env) (w : World) : Z :=
  Arduino.to_u32 (env_millis env (S (S (tick w)))).

(** The state after the first turn of [loop] in the session [remote_env]. *)
Definition remote_first_turn : World :=
  match loop remote_env remote_booted with
  | Done _ w => w
  | Fault _ => remote_booted
  end.

(** A state in which the last level read on every button was pressed and
    nothing is debounced yet. *)
Definition level_seen : World := set_lastRaw (fun _ => true) (at_positions 0 1000 500).



(** What a commit leaves, given the state before it. *)
Definition committed (w w' : World) : Prop :=
  calibratingMin w' = negb (calibratingMin w) /\
  holdTimer w' = 0 /\
  currentPos w' = currentPos w /\
  (if calibratingMin w
   then minPos w' = currentPos w /\ maxPos w' = maxPos w
   else minPos w' = Z.min (currentPos w) (minPos w) /\
        maxPos w' = Z.max (currentPos w) (minPos w)).


(** The Matter stack is commissioned, connected and online when [setup],
    started at power-on, polls for it. *)
Definition ready (env : Env) : Prop :=
  env_commissioned env 1 = true /\
  env_thread_connected env 2 = true /\
  env_online env 3 = true.

(** What [setup] has output when the stack is ready, before it turns to
    the store. *)
Definition setup_outputs : list Event :=
  [ DigitalWrite MOTOR_ENABLE_PIN HIGH; DigitalWrite SLEEP_PIN LOW;
    DigitalWrite LED_RED HIGH; DigitalWrite LED_GREEN LOW; DigitalWrite LED_BUILTIN LOW;
    DigitalWrite LED_RED LOW ].

(** A store holding a valid record with the given positions. *)
Definition store_of (mn mx cur : Z) : gmap Z Z :=
  eeprom_put16 EEPROM_FLAG_ADDR EEPROM_FLAG_VALUE
    (eeprom_put16 EEPROM_CURR_POS_ADDR cur
       (eeprom_put16 EEPROM_MAX_POS_ADDR mx
          (eeprom_put16 EEPROM_MIN_POS_ADDR mn ∅))).

(** The time a trace spends in [delay], in milliseconds. *)
Fixpoint total_delay (tr : list Event) : Z :=
  match tr with
  | [] => 0
  | Delay ms :: tr' => ms + total_delay tr'
  | _ :: tr' => total_delay tr'
  end.

(** The saved flag and the store are as before. *)
Definition store_frozen (w w' : World) : Prop :=
  eepromSaved w' = eepromSaved w /\ eeprom w' = eeprom w.

(** The state after the second turn of [loop] in the session
    [remote_env], in which the position 510 has been saved. *)
Definition remote_saved : World :=
  match loops remote_env 2 remote_booted with
  | Done _ w => w
  | Fault _ => remote_booted
  end.
Definition remote_later : World :=
  match loops remote_env 2 remote_saved with
  | Done _ w => w
  | Fault _ => remote_saved
  end.

(** The Matter stack comes online at the third poll. *)
Definition slow_env : Env :=
  {| env_pin := fun _ _ => HIGH;
     env_millis := fun _ => 0;
     env_commissioned := fun _ => true;
     env_thread_connected := fun _ => true;
     env_online := fun k => (2 <=? k)%nat;
     env_requested_raw := fun _ => 0;
     env_requested_percent := fun _ => 0 |}.


(** * Properties *)

Ltac unfold_sketch :=
  unfold EEPROM_put, EEPROM_get, set_actual_lift_position_raw,
    set_actual_lift_position_percent, set_current_operation,
    digitalWrite, delayMicroseconds, delay, emit, and_then, not_,
    bind, ret, gets, modify, raise, observe in *.

(** ** Single steps at a boundary *)

Lemma at_limit_up w :
  currentPos w >= maxPos w -> at_limit true false w = true.
Proof.
  intros H. unfold at_limit. simpl.
  destruct (Z.geb_spec (currentPos w) (maxPos w)) as [_ | Hlt]; [reflexivity | lia].
Qed.

Lemma at_limit_down w :
  currentPos w <= minPos w -> at_limit false false w = true.
Proof.
  intros H. unfold at_limit. simpl.
  destruct (Z.leb_spec (currentPos w) (minPos w)) as [_ | Hlt]; [reflexivity | lia].
Qed.

(** C4: with [ignoreLimits = false], a step that would cross a boundary
    (up at or above [maxPos], down at or below [minPos]) returns normally
    and leaves the whole state as it was: [currentPos] is unchanged, nothing
    is output, no fault is raised. *)
Theorem single_step_refused_at_limit (env : Env) (w : World) (moveUp : bool) (stepDelay : Z) :
  (moveUp = true /\ currentPos w >= maxPos w) \/
  (moveUp = false /\ currentPos w <= minPos w) ->
  move_stepper_single_step env moveUp false stepDelay w = Done tt w.
Proof.
  intros [[-> Hup] | [-> Hdown]]; unfold move_stepper_single_step, bind, gets.
  - rewrite (at_limit_up w Hup). reflexivity.
  - rewrite (at_limit_down w Hdown). reflexivity.
Qed.

(** ** EEPROM cells *)

Lemma eeprom_get16_put16_same (m : gmap Z Z) (a v : Z) :
  0 <= v < 65536 -> eeprom_get16 (eeprom_put16 a v m) a = v.
Proof.
  intros Hv. unfold eeprom_get16, eeprom_put16, eeprom_byte.
  rewrite lookup_insert_ne by lia.
  rewrite !lookup_insert_eq. simpl.
  pose proof (Z.div_mod v 256 ltac:(lia)). lia.
Qed.

Lemma eeprom_get16_put16_other (m : gmap Z Z) (a b v : Z) :
  a <> b -> a <> b + 1 -> a + 1 <> b ->
  eeprom_get16 (eeprom_put16 b v m) a = eeprom_get16 m a.
Proof.
  intros H1 H2 H3. unfold eeprom_get16, eeprom_put16, eeprom_byte.
  rewrite !lookup_insert_ne by lia. reflexivity.
Qed.

(** ** Storage initialisation *)

Lemma initialize_eeprom_uninitialised (w : World) :
  eeprom_get16 (eeprom w) EEPROM_FLAG_ADDR <> EEPROM_FLAG_VALUE ->
  exists w', initialize_eeprom w = Done tt w' /\ defaults_stored (eeprom w').
Proof.
  intros Hflag. unfold initialize_eeprom. unfold_sketch.
  destruct (Z.eqb_spec (eeprom_get16 (eeprom w) EEPROM_FLAG_ADDR) EEPROM_FLAG_VALUE)
    as [Heq | _]; [contradiction |].
  simpl. eexists. split; [reflexivity |].
  unfold defaults_stored, EEPROM_MIN_POS_ADDR, EEPROM_MAX_POS_ADDR,
    EEPROM_CURR_POS_ADDR, EEPROM_FLAG_ADDR, EEPROM_FLAG_VALUE. simpl.
  repeat split.
  - rewrite !eeprom_get16_put16_other by lia.
    apply eeprom_get16_put16_same. vm_compute. split; [discriminate | reflexivity].
  - rewrite !eeprom_get16_put16_other by lia.
    apply eeprom_get16_put16_same. vm_compute. split; [discriminate | reflexivity].
  - rewrite !eeprom_get16_put16_other by lia.
    apply eeprom_get16_put16_same. vm_compute. split; [discriminate | reflexivity].
  - apply eeprom_get16_put16_same. vm_compute. split; [discriminate | reflexivity].
Qed.

Lemma initialize_eeprom_initialised (w : World) :
  eeprom_get16 (eeprom w) EEPROM_FLAG_ADDR = EEPROM_FLAG_VALUE ->
  initialize_eeprom w = Done tt w.
Proof.
  intros Hflag. unfold initialize_eeprom. unfold_sketch.
  rewrite Hflag. reflexivity.
Qed.

Lemma load_positions_from_eeprom_reads (w : World) :
  exists w', load_positions_from_eeprom w = Done tt w' /\
    minPos w' = eeprom_get16 (eeprom w) EEPROM_MIN_POS_ADDR /\
    maxPos w' = eeprom_get16 (eeprom w) EEPROM_MAX_POS_ADDR /\
    currentPos w' = eeprom_get16 (eeprom w) EEPROM_CURR_POS_ADDR.
Proof.
  unfold load_positions_from_eeprom. unfold_sketch. simpl.
  eexists. split; [reflexivity |]. simpl. auto.
Qed.

(** C8: storage initialisation never fails.  When the sentinel read from
    the store differs from the valid marker, the store afterwards holds
    min = 0, max = 1000, current = 500 (the midpoint) and the valid marker,
    and these are the positions then loaded; when the sentinel matches, the
    state, the stored record included, is left as it was. *)
Theorem initialize_eeprom_defaults (w : World) :
  exists w',
    initialize_eeprom w = Done tt w' /\
    (eeprom_get16 (eeprom w) EEPROM_FLAG_ADDR <> EEPROM_FLAG_VALUE ->
       defaults_stored (eeprom w') /\
       exists w'', load_positions_from_eeprom w' = Done tt w'' /\
         minPos w'' = 0 /\ maxPos w'' = 1000 /\
         currentPos w'' = (minPos w'' + maxPos w'') / 2) /\
    (eeprom_get16 (eeprom w) EEPROM_FLAG_ADDR = EEPROM_FLAG_VALUE -> w' = w).
Proof.
  destruct (Z.eq_dec (eeprom_get16 (eeprom w) EEPROM_FLAG_ADDR) EEPROM_FLAG_VALUE)
    as [Heq | Hne].
  - exists w. split; [apply initialize_eeprom_initialised; exact Heq |].
    split; [intros Hc; contradiction | reflexivity].
  - destruct (initialize_eeprom_uninitialised w Hne) as (w' & Hrun & Hdef).
    exists w'. split; [exact Hrun |]. split; [| intros Hc; contradiction].
    intros _. split; [exact Hdef |].
    destruct (load_positions_from_eeprom_reads w') as (w'' & Hload & Hmn & Hmx & Hcur).
    destruct Hdef as (Dmn & Dmx & Dcur & _).
    exists w''. split; [exact Hload |].
    rewrite Hmn, Hmx, Hcur, Dmn, Dmx, Dcur. repeat split; reflexivity.
Qed.

(** ** Committing boundaries *)

(** A commit made while [calibratingMin] holds stores [currentPos] as
    [minPos] and passes to the calibration of MAX. *)
Lemma commit_boundary_min (w : World) :
  calibratingMin w = true ->
  exists w', commit_boundary w = Done tt w' /\
    minPos w' = currentPos w /\ maxPos w' = maxPos w /\
    currentPos w' = currentPos w /\ calibratingMin w' = false /\
    eeprom w' = eeprom_put16 EEPROM_MIN_POS_ADDR (currentPos w) (eeprom w).
Proof.
  intros Hcm. unfold commit_boundary, flash_both_leds. unfold_sketch.
  rewrite Hcm. cbn. eexists. split; [reflexivity |]. cbn. auto.
Qed.

(** A commit made while calibrating MAX orders the two boundaries. *)
Lemma commit_boundary_max (w : World) :
  calibratingMin w = false ->
  exists w', commit_boundary w = Done tt w' /\
    minPos w' = Z.min (currentPos w) (minPos w) /\
    maxPos w' = Z.max (currentPos w) (minPos w) /\
    currentPos w' = currentPos w /\ calibratingMin w' = true.
Proof.
  intros Hcm. unfold commit_boundary, flash_both_leds. unfold_sketch.
  rewrite Hcm.
  destruct (Z.ltb_spec (currentPos w) (minPos w)) as [Hlt | Hge]; cbn;
    (eexists; split; [reflexivity |]); cbn; repeat split; lia.
Qed.

(** C1: a committed calibration cycle.  The MIN commit is made in [w0];
    the MAX commit is made in any later state [w2] that still has the
    [minPos] and the calibration state the MIN commit left.  After the MAX
    commit [minPos <= maxPos]: when [currentPos] is below the saved
    [minPos] the lower value becomes [minPos] and the higher [maxPos],
    otherwise [currentPos] becomes [maxPos]. *)
Theorem calibration_cycle_ordered (w0 : World) :
  calibratingMin w0 = true ->
  exists w1,
    commit_boundary w0 = Done tt w1 /\ minPos w1 = currentPos w0 /\
    forall w2, minPos w2 = minPos w1 -> calibratingMin w2 = calibratingMin w1 ->
      exists w3,
        commit_boundary w2 = Done tt w3 /\
        minPos w3 <= maxPos w3 /\
        (if currentPos w2 <? minPos w1
         then minPos w3 = currentPos w2 /\ maxPos w3 = minPos w1
         else minPos w3 = minPos w1 /\ maxPos w3 = currentPos w2) /\
        calibratingMin w3 = true.
Proof.
  intros Hcm.
  destruct (commit_boundary_min w0 Hcm) as (w1 & Hrun1 & Hmn1 & _ & _ & Hcm1 & _).
  exists w1. split; [exact Hrun1 |]. split; [exact Hmn1 |].
  intros w2 Hmn2 Hcm2. rewrite Hcm1 in Hcm2.
  destruct (commit_boundary_max w2 Hcm2) as (w3 & Hrun3 & Hmn3 & Hmx3 & _ & Hcm3).
  exists w3. split; [exact Hrun3 |].
  rewrite Hmn3, Hmx3, Hmn2. split; [lia |]. split; [| exact Hcm3].
  destruct (Z.ltb_spec (currentPos w2) (minPos w1)); lia.
Qed.

(** ** What a call leaves alone *)

Section Keeps.

Variable R : World -> World -> Prop.
Hypothesis R_refl : forall w, R w w.
Hypothesis R_trans : forall w1 w2 w3, R w1 w2 -> R w2 w3 -> R w1 w3.

Lemma keeps_ret {A : Type} (a : A) : keeps R (ret a).
Proof. intros w a' w' H. inversion H. apply R_refl. Qed.

Lemma keeps_gets {A : Type} (f : World -> A) : keeps R (gets f).
Proof. intros w a' w' H. inversion H. apply R_refl. Qed.

Lemma keeps_raise {A : Type} (f : fault) : keeps R (@raise A f).
Proof. intros w a' w' H. discriminate H. Qed.

Lemma keeps_modify (f : World -> World) :
  (forall w, R w (f w)) -> keeps R (modify f).
Proof. intros Hf w a' w' H. inversion H. apply Hf. Qed.

Lemma keeps_bind {A B : Type} (c : M A) (k : A -> M B) :
  keeps R c -> (forall a, keeps R (k a)) -> keeps R (bind c k).
Proof.
  intros Hc Hk w b w' H. unfold bind in H.
  destruct (c w) as [a w1 | f] eqn:Ec; [| discriminate H].
  apply (R_trans w w1 w'); [apply (Hc w a w1 Ec) | apply (Hk a w1 b w' H)].
Qed.

Lemma keeps_if {A : Type} (b : bool) (c1 c2 : M A) :
  keeps R c1 -> keeps R c2 -> keeps R (if b then c1 else c2).
Proof. destruct b; auto. Qed.

Lemma keeps_repeat_n (n : nat) (body : M unit) :
  keeps R body -> keeps R (repeat_n n body).
Proof.
  intros Hb. induction n as [| n IH]; simpl.
  - apply keeps_ret.
  - apply keeps_bind; [exact Hb | intros _; exact IH].
Qed.

Lemma keeps_and_then (c1 c2 : M bool) :
  keeps R c1 -> keeps R c2 -> keeps R (and_then c1 c2).
Proof.
  intros H1 H2. unfold and_then. apply keeps_bind; [exact H1 |].
  intros b. apply keeps_if; [exact H2 | apply keeps_ret].
Qed.

Lemma keeps_not_ (c : M bool) : keeps R c -> keeps R (not_ c).
Proof.
  intros H. unfold not_. apply keeps_bind; [exact H | intros b; apply keeps_ret].
Qed.

Lemma keeps_map_ (x a b c d : Z) : keeps R (map_ x a b c d).
Proof.
  unfold map_. destruct (Arduino.map x a b c d); [apply keeps_ret | apply keeps_raise].
Qed.

(** Reads and outputs change the tick and the trace only. *)
Hypothesis R_tick : forall w n, R w (set_tick n w).
Hypothesis R_trace : forall w tr, R w (set_trace tr w).

Lemma keeps_observe (env : Env) {A : Type} (f : Env -> nat -> A) : keeps R (observe env f).
Proof. intros w a w' H. inversion H. apply R_tick. Qed.

Lemma keeps_emit (e : Event) : keeps R (emit e).
Proof. apply keeps_modify. intros w. apply R_trace. Qed.

End Keeps.

Lemma no_commit_refl w : no_commit w w.
Proof. repeat split. Qed.

Lemma no_commit_trans w1 w2 w3 : no_commit w1 w2 -> no_commit w2 w3 -> no_commit w1 w3.
Proof. unfold no_commit. intros (?&?&?&?) (?&?&?&?). repeat split; congruence. Qed.

(** Structural proof of a [keeps] goal, given that the relation is
    reflexive and transitive. *)
Ltac keeps_step refl trans :=
  first
    [ match goal with H : _ |- keeps _ _ => solve [apply H] end
    | apply (keeps_repeat_n _ refl trans)
    | apply (keeps_and_then _ refl trans)
    | apply (keeps_not_ _ refl trans)
    | apply (keeps_bind _ trans); [ | intros ? ]
    | apply keeps_if
    | apply keeps_modify; intros; repeat split
    | apply keeps_observe; intros; repeat split
    | apply (keeps_gets _ refl)
    | apply (keeps_ret _ refl)
    | apply keeps_raise
    | apply (keeps_map_ _ refl) ].

Ltac keeps_no_commit := repeat keeps_step no_commit_refl no_commit_trans.

Lemma is_button_pressed_no_commit env pin : keeps no_commit (is_button_pressed env pin).
Proof.
  unfold is_button_pressed, digitalRead, millis. keeps_no_commit.
Qed.

Lemma move_stepper_single_step_no_commit env up ign d :
  keeps no_commit (move_stepper_single_step env up ign d).
Proof.
  unfold move_stepper_single_step, wakeDriver, digitalWrite, delayMicroseconds,
    set_actual_lift_position_raw, set_actual_lift_position_percent, millis.
  keeps_no_commit.
Qed.

Lemma single_button_moves_no_commit env : keeps no_commit (single_button_moves env).
Proof.
  pose proof (is_button_pressed_no_commit env) as Hb.
  pose proof (move_stepper_single_step_no_commit env) as Hs.
  unfold single_button_moves. keeps_no_commit.
Qed.

Lemma are_both_pressed_no_commit env : keeps no_commit (are_both_pressed env).
Proof.
  pose proof (is_button_pressed_no_commit env) as Hb.
  unfold are_both_pressed. keeps_no_commit.
Qed.

(** ** Debounced buttons *)

Lemma debounce_only_trans w1 w2 w3 :
  debounce_only w1 w2 -> debounce_only w2 w3 -> debounce_only w1 w3.
Proof.
  unfold debounce_only. intros H12 H23. rewrite H23 at 1. rewrite H12 at 1. reflexivity.
Qed.

Lemma upd_same {A : Type} (f : Pin -> A) (p : Pin) (v : A) : upd f p v p = v.
Proof. unfold upd. destruct (decide (p = p)); [reflexivity | contradiction]. Qed.

Lemma upd_true_mono (f : Pin -> bool) (p q : Pin) : f q = true -> upd f p true q = true.
Proof. intros H. unfold upd. destruct (decide (q = p)); [reflexivity | exact H]. Qed.

Lemma is_button_pressed_held env w pin :
  env_pin env (tick w) MODE_SWITCH_PIN = HIGH ->
  env_pin env (S (tick w)) pin = LOW ->
  stable w pin = true ->
  exists w', is_button_pressed env pin w = Done true w' /\
    debounce_only w w' /\ tick w' = S (S (S (tick w))) /\
    (forall q, stable w q = true -> stable w' q = true).
Proof.
  intros Hsw Hpin Hst. unfold is_button_pressed, digitalRead, millis. unfold_sketch.
  cbn. rewrite Hsw. cbn. rewrite Hpin. cbn.
  destruct (lastRaw w pin); cbn;
    match goal with |- context [if ?c then _ else _] => destruct c end; cbn;
    rewrite ?upd_same, ?Hst;
    (eexists; split; [reflexivity |]);
    (split; [destruct w; reflexivity |]);
    (split; [reflexivity |]); cbn; intros q Hq; auto using upd_true_mono.
Qed.

Lemma is_button_pressed_both_held env w pin :
  pin = MOVE_UP_BUTTON \/ pin = MOVE_DOWN_BUTTON ->
  both_held env (tick w) ->
  stable w MOVE_UP_BUTTON = true -> stable w MOVE_DOWN_BUTTON = true ->
  exists w', is_button_pressed env pin w = Done true w' /\
    debounce_only w w' /\ both_held env (tick w') /\
    stable w' MOVE_UP_BUTTON = true /\ stable w' MOVE_DOWN_BUTTON = true.
Proof.
  intros Hpin Hheld Hup Hdown.
  destruct (is_button_pressed_held env w pin) as (w' & Hrun & Hdeb & Htick & Hst).
  - apply (Hheld (tick w)). lia.
  - destruct (Hheld (S (tick w)) ltac:(lia)) as (_ & Hu & Hd).
    destruct Hpin as [-> | ->]; assumption.
  - destruct Hpin as [-> | ->]; assumption.
  - exists w'. repeat split; auto.
    all: intros; apply (Hheld k); lia.
Qed.

Lemma single_button_moves_held env w :
  both_held env (tick w) ->
  stable w MOVE_UP_BUTTON = true -> stable w MOVE_DOWN_BUTTON = true ->
  exists w', single_button_moves env w = Done tt w' /\
    debounce_only w w' /\ both_held env (tick w') /\
    stable w' MOVE_UP_BUTTON = true /\ stable w' MOVE_DOWN_BUTTON = true.
Proof.
  intros Hheld Hup Hdown.
  destruct (is_button_pressed_both_held env w MOVE_UP_BUTTON)
    as (w1 & E1 & D1 & H1 & U1 & L1); auto.
  destruct (is_button_pressed_both_held env w1 MOVE_DOWN_BUTTON)
    as (w2 & E2 & D2 & H2 & U2 & L2); auto.
  destruct (is_button_pressed_both_held env w2 MOVE_DOWN_BUTTON)
    as (w3 & E3 & D3 & H3 & U3 & L3); auto.
  destruct (is_button_pressed_both_held env w3 MOVE_UP_BUTTON)
    as (w4 & E4 & D4 & H4 & U4 & L4); auto.
  exists w4. split.
  - unfold single_button_moves, and_then, not_, bind, ret.
    rewrite E1; cbn [negb]. rewrite E2; cbn [negb]. rewrite E3; cbn [negb].
    rewrite E4; cbn [negb]. reflexivity.
  - split; [eauto using debounce_only_trans |]. auto.
Qed.

Lemma debounce_only_no_motion w w' :
  debounce_only w w' -> currentPos w' = currentPos w /\ trace w' = trace w.
Proof. intros H. rewrite H. split; reflexivity. Qed.

(** ** The hold timer *)

Lemma hold_logic_released env w : hold_logic env false w = Done tt (set_holdTimer 0 w).
Proof. reflexivity. Qed.

Lemma hold_logic_below env w :
  hold_elapsed env w < HOLD_TIMER_THRESHOLD ->
  exists w', hold_logic env true w = Done tt w' /\ no_commit w w' /\
    holdTimer w' = armed_timer env w.
Proof.
  unfold hold_elapsed, armed_timer, hold_logic, millis. unfold_sketch.
  intros Hlt. destruct (holdTimer w =? 0) eqn:Eh; cbn.
  - destruct (Z.geb_spec
                (Arduino.to_u32 (Arduino.to_u32 (env_millis env (S (tick w))) -
                                 Arduino.to_u32 (env_millis env (tick w))))
                HOLD_TIMER_THRESHOLD) as [Hge | _]; [lia |].
    eexists. split; [reflexivity |]. split; [repeat split | reflexivity].
  - destruct (Z.geb_spec
                (Arduino.to_u32 (Arduino.to_u32 (env_millis env (tick w)) - holdTimer w))
                HOLD_TIMER_THRESHOLD) as [Hge | _]; [lia |].
    eexists. split; [reflexivity |]. split; [repeat split | reflexivity].
Qed.

Lemma run_calibration_mode_calibrating env w :
  env_pin env (tick w) MODE_SWITCH_PIN = HIGH ->
  run_calibration_mode env w =
  (single_button_moves env ;; both <- are_both_pressed env ;; hold_logic env both)
    (set_tick (S (tick w)) w).
Proof.
  intros Hsw. unfold run_calibration_mode, digitalRead, observe, bind, gets.
  rewrite Hsw. unfold HIGH. cbn [negb].
  destruct (calibratingMin (set_tick (S (tick w)) w)); reflexivity.
Qed.

(** One turn of calibration mode that reaches the hold logic (the mode
    switch reads HIGH), whose single-button part has returned in [w1], in
    terms of what [are_both_pressed] reports.  If it reports false, the hold
    timer is zero afterwards and nothing has been committed.  If it reports
    true but the time on the hold timer is below the threshold, nothing is
    committed either.  And when both buttons are already debounced as
    pressed and every read finds them pressed, the single-button part has
    moved nothing.  A turn that returns early because the switch reads LOW
    is not covered: it leaves the timer as it is. *)
Theorem hold_commit_serialised (env : Env) (w w1 : World) :
  env_pin env (tick w) MODE_SWITCH_PIN = HIGH ->
  single_button_moves env (set_tick (S (tick w)) w) = Done tt w1 ->
  (forall w2, are_both_pressed env w1 = Done false w2 ->
     exists w3, run_calibration_mode env w = Done tt w3 /\
       holdTimer w3 = 0 /\ no_commit w w3) /\
  (forall w2, are_both_pressed env w1 = Done true w2 ->
     hold_elapsed env w2 < HOLD_TIMER_THRESHOLD ->
     exists w3, run_calibration_mode env w = Done tt w3 /\
       holdTimer w3 = armed_timer env w2 /\ no_commit w w3) /\
  (both_held env (tick w) ->
   stable w MOVE_UP_BUTTON = true -> stable w MOVE_DOWN_BUTTON = true ->
   currentPos w1 = currentPos w /\ trace w1 = trace w).
Proof.
  intros Hsw Hmoves.
  assert (Hkeep1 : no_commit w w1).
  { apply (no_commit_trans w (set_tick (S (tick w)) w) w1); [repeat split |].
    apply (single_button_moves_no_commit env _ tt w1 Hmoves). }
  split; [| split].
  - intros w2 Hboth. exists (set_holdTimer 0 w2).
    rewrite (run_calibration_mode_calibrating env w Hsw).
    unfold bind. rewrite Hmoves, Hboth.
    split; [apply hold_logic_released |]. split; [reflexivity |].
    apply (no_commit_trans w w2); [| repeat split].
    apply (no_commit_trans w w1 w2 Hkeep1).
    apply (are_both_pressed_no_commit env w1 false w2 Hboth).
  - intros w2 Hboth Hbelow.
    destruct (hold_logic_below env w2 Hbelow) as (w3 & Hrun & Hkeep & Htimer).
    exists w3. rewrite (run_calibration_mode_calibrating env w Hsw).
    unfold bind. rewrite Hmoves, Hboth.
    split; [exact Hrun |]. split; [exact Htimer |].
    apply (no_commit_trans w w2 w3); [| exact Hkeep].
    apply (no_commit_trans w w1 w2 Hkeep1).
    apply (are_both_pressed_no_commit env w1 true w2 Hboth).
  - intros Hheld Hup Hdown.
    destruct (single_button_moves_held env (set_tick (S (tick w)) w))
      as (w' & Hrun & Hdeb & _); auto.
    { intros k Hk. apply (Hheld k). cbn in Hk. lia. }
    rewrite Hrun in Hmoves. inversion Hmoves; subst w'.
    destruct (debounce_only_no_motion _ _ Hdeb) as (Hcur & Htr).
    split; [exact Hcur | exact Htr].
Qed.

(** ** Driving to a target *)

Lemma step_pulses_app tr1 tr2 :
  step_pulses (tr1 ++ tr2) = (step_pulses tr1 + step_pulses tr2)%nat.
Proof. apply count_occ_app. Qed.

Lemma to_u16_small z : 0 <= z < 65536 -> Arduino.to_u16 z = z.
Proof. intros H. unfold Arduino.to_u16. apply Z.mod_small. exact H. Qed.

(** One turn of the loop: one pulse, one clock read, [currentPos] moved
    by [dir]. *)
Lemma matter_step_spec env dir w :
  exists w', matter_step env dir w = Done tt w' /\
    currentPos w' = Arduino.to_u16 (currentPos w + dir) /\
    step_pulses (trace w') = S (step_pulses (trace w)) /\
    tick w' = S (tick w) /\
    minPos w' = minPos w /\ maxPos w' = maxPos w /\
    lastReqLiftRaw w' = lastReqLiftRaw w.
Proof.
  unfold matter_step, millis. unfold_sketch. cbn.
  eexists. split; [reflexivity |]. cbn.
  repeat split. rewrite !step_pulses_app. vm_compute (step_pulses [_]). lia.
Qed.

Lemma step_until_done env fuel dir newPos w :
  currentPos w = newPos -> step_until env fuel dir newPos w = Done tt w.
Proof.
  intros H. destruct fuel; cbn; unfold bind, gets; rewrite H, Z.eqb_refl; reflexivity.
Qed.

Lemma step_until_iter env fuel dir newPos w w' :
  currentPos w <> newPos ->
  matter_step env dir w = Done tt w' ->
  step_until env (S fuel) dir newPos w = step_until env fuel dir newPos w'.
Proof.
  intros Hne Hstep. cbn [step_until]. unfold bind at 1. unfold gets.
  destruct (Z.eqb_spec (currentPos w) newPos) as [? | _]; [contradiction |].
  unfold bind. rewrite Hstep. reflexivity.
Qed.

Lemma step_until_out_of_fuel env dir newPos w :
  currentPos w <> newPos -> step_until env O dir newPos w = Fault OutOfFuel.
Proof.
  intros Hne. cbn. unfold bind, gets.
  destruct (Z.eqb_spec (currentPos w) newPos) as [? | _]; [contradiction | reflexivity].
Qed.

Lemma step_until_up env newPos (n : nat) :
  forall fuel w,
    (n <= fuel)%nat -> 0 <= currentPos w -> newPos < 65536 ->
    newPos - currentPos w = Z.of_nat n ->
    exists w', step_until env fuel 1 newPos w = Done tt w' /\ reached newPos n w w'.
Proof.
  induction n as [| n IH]; intros fuel w Hfuel Hlo Hhi Hdist.
  - exists w. split; [apply step_until_done; lia |].
    unfold reached. repeat split; lia.
  - destruct fuel as [| fuel]; [lia |].
    destruct (matter_step_spec env 1 w) as (w1 & Hstep & Hcur & Hp & Ht & Hmn & Hmx & Hreq).
    rewrite to_u16_small in Hcur by lia.
    rewrite (step_until_iter env fuel 1 newPos w w1) by (auto; lia).
    destruct (IH fuel w1) as (w' & Hrun & Hc' & Hp' & Ht' & Hmn' & Hmx' & Hreq'); try lia.
    exists w'. split; [exact Hrun |].
    unfold reached. repeat split; try congruence; lia.
Qed.

Lemma step_until_down env newPos (n : nat) :
  forall fuel w,
    (n <= fuel)%nat -> 0 <= newPos -> currentPos w < 65536 ->
    currentPos w - newPos = Z.of_nat n ->
    exists w', step_until env fuel (-1) newPos w = Done tt w' /\ reached newPos n w w'.
Proof.
  induction n as [| n IH]; intros fuel w Hfuel Hlo Hhi Hdist.
  - exists w. split; [apply step_until_done; lia |].
    unfold reached. repeat split; lia.
  - destruct fuel as [| fuel]; [lia |].
    destruct (matter_step_spec env (-1) w) as (w1 & Hstep & Hcur & Hp & Ht & Hmn & Hmx & Hreq).
    rewrite to_u16_small in Hcur by lia.
    rewrite (step_until_iter env fuel (-1) newPos w w1) by (auto; lia).
    destruct (IH fuel w1) as (w' & Hrun & Hc' & Hp' & Ht' & Hmn' & Hmx' & Hreq'); try lia.
    exists w'. split; [exact Hrun |].
    unfold reached. repeat split; try congruence; lia.
Qed.

Lemma step_until_distance env fuel newPos w :
  0 <= currentPos w < 65536 -> 0 <= newPos < 65536 ->
  (distance (currentPos w) newPos <= fuel)%nat ->
  exists w',
    step_until env fuel (direction (currentPos w) newPos) newPos w = Done tt w' /\
    reached newPos (distance (currentPos w) newPos) w w'.
Proof.
  intros Hcur Hnew Hfuel. unfold direction, distance in *.
  destruct (Z.ltb_spec (currentPos w) newPos) as [Hlt | Hge].
  - apply step_until_up; lia.
  - apply step_until_down; lia.
Qed.

(** C6: the loop of [move_stepper_to_position], entered with the direction
    the function computes, returns for every 16-bit [currentPos] and target;
    it makes exactly |target - currentPos| turns (one step pulse and one
    clock read each) and leaves [currentPos] on the target.  The bound the
    model puts on the loop is never reached, and with target equal to
    [currentPos] the loop makes no turn and changes nothing. *)
Theorem step_until_terminates (env : Env) (w : World) (newPos : Z) :
  0 <= currentPos w < 65536 -> 0 <= newPos < 65536 ->
  (exists w',
     step_until env MAX_ITERATIONS (direction (currentPos w) newPos) newPos w = Done tt w' /\
     currentPos w' = newPos /\
     step_pulses (trace w') = (step_pulses (trace w) + Z.to_nat (Z.abs (newPos - currentPos w)))%nat /\
     tick w' = (tick w + Z.to_nat (Z.abs (newPos - currentPos w)))%nat) /\
  (newPos = currentPos w ->
     step_until env MAX_ITERATIONS (direction (currentPos w) newPos) newPos w = Done tt w).
Proof.
  intros Hcur Hnew. split.
  - destruct (step_until_distance env MAX_ITERATIONS newPos w Hcur Hnew)
      as (w' & Hrun & Hc & Hp & Ht & _).
    { unfold distance, MAX_ITERATIONS. lia. }
    exists w'. unfold distance in *. auto.
  - intros Heq. apply step_until_done. symmetry. exact Heq.
Qed.

(** ** The remote-position handler *)

Lemma bind_inv {A B : Type} (c : M A) (k : A -> M B) (w w' : World) (b : B) :
  bind c k w = Done b w' -> exists a w1, c w = Done a w1 /\ k a w1 = Done b w'.
Proof.
  unfold bind. destruct (c w) as [a w1 | f]; [| discriminate].
  intros H. exists a, w1. split; [reflexivity | exact H].
Qed.

Ltac bind_inv H :=
  repeat (apply bind_inv in H;
          let a := fresh "a" in
          let w := fresh "w" in
          let E := fresh "E" in
          destruct H as (a & w & E & H); cbv beta in H).

(** An unchanged request: the handler returns at once; but for the read
    it made, the state is as it was. *)
Lemma run_matter_mode_unchanged env w :
  requested_raw env w = lastReqLiftRaw w ->
  run_matter_mode env w = Done tt (set_tick (S (tick w)) w).
Proof.
  unfold requested_raw. intros H.
  unfold run_matter_mode, get_requested_lift_position_raw, observe, bind, gets.
  cbn [lastReqLiftRaw set_tick]. rewrite H, Z.eqb_refl. reflexivity.
Qed.

(** Whenever the handler returns, the request it read is the last handled. *)
Lemma run_matter_mode_records env w w' :
  run_matter_mode env w = Done tt w' -> lastReqLiftRaw w' = requested_raw env w.
Proof.
  unfold requested_raw, run_matter_mode, get_requested_lift_position_raw, observe.
  intros H. unfold bind at 1 in H. unfold bind at 1 in H. unfold gets at 1 in H.
  cbn [lastReqLiftRaw set_tick] in H.
  destruct (Z.eqb_spec (Arduino.to_u16 (env_requested_raw env (tick w))) (lastReqLiftRaw w))
    as [Heq | Hne].
  - inversion H. cbn. symmetry. exact Heq.
  - bind_inv H. inversion H. reflexivity.
Qed.

(** C5: the handler is idempotent in the requested raw value.  When the
    value read equals the last handled one, the handler returns with the
    state as it was, the trace included: no motion, no report.  And when a
    call has returned and the next call reads the same raw value as it did,
    that next call does nothing, so of two calls in a row with one raw value
    at most the first moves the motor. *)
Theorem run_matter_mode_idempotent (env : Env) (w : World) :
  (requested_raw env w = lastReqLiftRaw w ->
     run_matter_mode env w = Done tt (set_tick (S (tick w)) w)) /\
  (forall w1,
     run_matter_mode env w = Done tt w1 ->
     requested_raw env w1 = requested_raw env w ->
     run_matter_mode env w1 = Done tt (set_tick (S (tick w1)) w1) /\
     trace (set_tick (S (tick w1)) w1) = trace w1).
Proof.
  split.
  - apply run_matter_mode_unchanged.
  - intros w1 Hrun Hsame. split; [| reflexivity].
    apply run_matter_mode_unchanged.
    rewrite (run_matter_mode_records env w w1 Hrun). exact Hsame.
Qed.

Lemma same_request_refl w : same_request w w.
Proof. reflexivity. Qed.

Lemma same_request_trans w1 w2 w3 :
  same_request w1 w2 -> same_request w2 w3 -> same_request w1 w3.
Proof. unfold same_request. congruence. Qed.

Ltac keeps_same_request := repeat keeps_step same_request_refl same_request_trans.

Lemma wait_until_same_request fuel cond :
  keeps same_request cond -> keeps same_request (wait_until fuel cond).
Proof.
  intros Hc. induction fuel as [| fuel IH]; cbn [wait_until]; unfold delay; keeps_same_request.
Qed.

Lemma setup_same_request env fuel : keeps same_request (setup env fuel).
Proof.
  assert (Hobs : forall f : Env -> nat -> bool, keeps same_request (observe env f)).
  { intros f. keeps_same_request. }
  assert (Hwait : forall f : Env -> nat -> bool,
            keeps same_request (wait_until fuel (observe env f))).
  { intros f. apply wait_until_same_request, Hobs. }
  unfold setup, initialize_eeprom, load_positions_from_eeprom, disableMotor, sleepDriver,
    isDeviceCommissioned, isDeviceThreadConnected, is_online,
    EEPROM_put, EEPROM_get, set_actual_lift_position_raw,
    set_actual_lift_position_percent, digitalWrite.
  keeps_same_request.
Qed.

Lemma updateLEDs_same_request env : keeps same_request (updateLEDs env).
Proof. unfold updateLEDs, digitalRead, digitalWrite. keeps_same_request. Qed.

Lemma updateSleepAndAutoSave_same_request env : keeps same_request (updateSleepAndAutoSave env).
Proof.
  unfold updateSleepAndAutoSave, auto_save, millis, disableMotor, sleepDriver,
    EEPROM_put, digitalWrite.
  keeps_same_request.
Qed.

Lemma commit_boundary_same_request : keeps same_request commit_boundary.
Proof.
  unfold commit_boundary, flash_both_leds, EEPROM_put, digitalWrite, delay.
  keeps_same_request.
Qed.

Lemma run_calibration_mode_same_request env : keeps same_request (run_calibration_mode env).
Proof.
  pose proof commit_boundary_same_request as Hcommit.
  unfold run_calibration_mode, hold_logic, single_button_moves, are_both_pressed,
    is_button_pressed, move_stepper_single_step, wakeDriver, digitalRead, millis,
    digitalWrite, delayMicroseconds, set_actual_lift_position_raw,
    set_actual_lift_position_percent.
  keeps_same_request.
Qed.

(** C10: the handler's record of the last handled request starts at 0:
    [setup] leaves it at 0, a turn of calibration mode and the idle
    bookkeeping leave it as it is, and as long as it has the value it had
    at boot a request whose raw value is 0 makes the handler return at once,
    with no motion and no operation state reported (the trace is as it
    was). *)
Theorem zero_request_taken_as_handled (env : Env) (e : gmap Z Z) (fuel : nat) (w0 : World) :
  setup env fuel (power_on e) = Done tt w0 ->
  lastReqLiftRaw w0 = 0 /\
  (forall w w', run_calibration_mode env w = Done tt w' \/
                updateLEDs env w = Done tt w' \/
                updateSleepAndAutoSave env w = Done tt w' ->
                lastReqLiftRaw w' = lastReqLiftRaw w) /\
  (forall w, lastReqLiftRaw w = lastReqLiftRaw w0 -> requested_raw env w = 0 ->
     run_matter_mode env w = Done tt (set_tick (S (tick w)) w) /\
     trace (set_tick (S (tick w)) w) = trace w).
Proof.
  intros Hboot.
  assert (H0 : lastReqLiftRaw w0 = 0).
  { apply (setup_same_request env fuel (power_on e) tt w0 Hboot). }
  split; [exact H0 |]. split.
  - intros w w' [H | [H | H]].
    + apply (run_calibration_mode_same_request env w tt w' H).
    + apply (updateLEDs_same_request env w tt w' H).
    + apply (updateSleepAndAutoSave_same_request env w tt w' H).
  - intros w Hlast Hreq. split; [| reflexivity].
    apply run_matter_mode_unchanged. congruence.
Qed.

(** ** The reported percentage *)

Lemma to_i32_small z : -2147483648 <= z < 2147483648 -> Arduino.to_i32 z = z.
Proof. intros H. unfold Arduino.to_i32. rewrite Z.mod_small by lia. lia. Qed.

Lemma map_percent_in_range cur mn mx :
  0 <= mn -> mx < 65536 -> mn < mx -> mn <= cur <= mx ->
  Arduino.map cur mn mx 0 100 = Some ((cur - mn) * 100 / (mx - mn)) /\
  0 <= (cur - mn) * 100 / (mx - mn) <= 100.
Proof.
  intros Hmn Hmx Hlt Hcur.
  assert (Hq : 0 <= (cur - mn) * 100 / (mx - mn) <= 100).
  { split; [apply Z.div_pos; lia |].
    apply Z.div_le_upper_bound; [lia |]. nia. }
  split; [| exact Hq].
  unfold Arduino.map. cbv zeta.
  rewrite (to_i32_small (mx - mn)) by lia.
  destruct (Z.eqb_spec (mx - mn) 0) as [? | _]; [lia |].
  rewrite (to_i32_small (cur - mn)) by lia.
  rewrite (to_i32_small (100 - 0)) by lia.
  replace (100 - 0) with 100 by lia.
  rewrite (to_i32_small ((cur - mn) * 100)) by nia.
  rewrite Z.quot_div_nonneg by lia.
  rewrite Z.add_0_r, to_i32_small by lia. reflexivity.
Qed.

Lemma percent_in_range cur mn mx :
  0 <= mn -> mx < 65536 -> mn < mx -> mn <= cur <= mx ->
  percent cur mn mx = Some ((cur - mn) * 100 / (mx - mn)).
Proof.
  intros Hmn Hmx Hlt Hcur. unfold percent.
  destruct (map_percent_in_range cur mn mx Hmn Hmx Hlt Hcur) as (-> & Hq).
  cbn. rewrite to_u16_small by lia. reflexivity.
Qed.

Lemma map_equal_bounds x b lo hi : Arduino.map x b b lo hi = None.
Proof. unfold Arduino.map. rewrite Z.sub_diag. reflexivity. Qed.

(** A step that is not refused: it faults exactly when the percentage has
    no value, and otherwise moves by one and reports that percentage. *)
Lemma move_stepper_single_step_taken env moveUp ignoreLimits stepDelay w :
  at_limit moveUp ignoreLimits w = false ->
  match percent (next_pos moveUp (currentPos w)) (minPos w) (maxPos w) with
  | None => move_stepper_single_step env moveUp ignoreLimits stepDelay w = Fault DivisionByZero
  | Some p =>
      exists w', move_stepper_single_step env moveUp ignoreLimits stepDelay w = Done tt w' /\
        currentPos w' = next_pos moveUp (currentPos w) /\
        trace w' = trace w ++ step_outputs moveUp stepDelay (currentPos w')
                           ++ [SetActualLiftPercent p] /\
        lastMoveTime w' = Arduino.to_u32 (env_millis env (tick w)) /\
        no_commit w w'
  end.
Proof.
  intros Hfree.
  assert (Hrun : move_stepper_single_step env moveUp ignoreLimits stepDelay w =
                 (if at_limit moveUp ignoreLimits w then ret tt w
                  else match Arduino.map (next_pos moveUp (currentPos w)) (minPos w) (maxPos w) 0 100 with
                       | Some v =>
                           Done tt
                             (set_trace
                                (trace w ++ step_outputs moveUp stepDelay (next_pos moveUp (currentPos w))
                                         ++ [SetActualLiftPercent (Arduino.to_u16 v)])
                                (set_lastMoveTime (Arduino.to_u32 (env_millis env (tick w)))
                                   (set_tick (S (tick w))
                                      (set_currentPos (next_pos moveUp (currentPos w)) w))))
                       | None => Fault DivisionByZero
                       end)).
  { unfold move_stepper_single_step, next_pos, wakeDriver, millis, map_. unfold_sketch.
    destruct (at_limit moveUp ignoreLimits w); [reflexivity |]. cbn.
    destruct (Arduino.map _ (minPos w) (maxPos w) 0 100) as [v |]; cbn; [| reflexivity].
    rewrite <- !app_assoc. destruct w; reflexivity. }
  rewrite Hrun, Hfree. unfold percent.
  destruct (Arduino.map _ (minPos w) (maxPos w) 0 100) as [v |]; cbn; [| reflexivity].
  eexists. split; [reflexivity |]. cbn. repeat split.
Qed.

(** C2 as stated fails: between the boundaries 0 and 1000 the position 999
    is reported as 99 percent, where rounding gives 100. *)
Lemma percent_truncates :
  ~ (forall cur mn mx, mn <= cur <= mx ->
       percent cur mn mx = Some (round_percent cur mn mx)).
Proof.
  intros Hclaim. specialize (Hclaim 999 0 1000 ltac:(lia)).
  vm_compute in Hclaim. discriminate Hclaim.
Qed.

(** The same on a run: the step from 998 to 999 reports 99. *)
Example step_to_999_reports_99 :
  exists w', move_stepper_single_step quiet_env true false STEP_DELAY_CALIBRATION
               (at_positions 0 1000 998) = Done tt w' /\
    currentPos w' = 999 /\
    last (trace w') = Some (SetActualLiftPercent 99) /\
    round_percent (currentPos w') (minPos w') (maxPos w') = 100.
Proof.
  eexists. split; [vm_compute; reflexivity |]. vm_compute. auto.
Qed.

(** C2, amended: with [minPos < maxPos], a step that ends between the
    boundaries reports the integer quotient
    [(currentPos - minPos) * 100 / (maxPos - minPos)], rounded down, and
    that percentage lies in [0,100]. *)
Theorem step_reports_floor_percent (env : Env) (w : World)
    (moveUp ignoreLimits : bool) (stepDelay : Z) :
  0 <= minPos w -> maxPos w < 65536 -> minPos w < maxPos w ->
  at_limit moveUp ignoreLimits w = false ->
  minPos w <= next_pos moveUp (currentPos w) <= maxPos w ->
  exists w' p,
    move_stepper_single_step env moveUp ignoreLimits stepDelay w = Done tt w' /\
    last (trace w') = Some (SetActualLiftPercent p) /\
    p = (currentPos w' - minPos w') * 100 / (maxPos w' - minPos w') /\
    0 <= p <= 100.
Proof.
  intros Hmn Hmx Hlt Hfree Hin.
  pose proof (move_stepper_single_step_taken env moveUp ignoreLimits stepDelay w Hfree) as Hstep.
  rewrite (percent_in_range _ _ _ Hmn Hmx Hlt Hin) in Hstep.
  destruct Hstep as (w' & Hrun & Hcur & Htr & _ & Hmn' & Hmx' & _).
  exists w', ((next_pos moveUp (currentPos w) - minPos w) * 100 / (maxPos w - minPos w)).
  split; [exact Hrun |]. split; [| split].
  - rewrite Htr, app_assoc. apply last_snoc.
  - rewrite Hcur, Hmn', Hmx'. reflexivity.
  - apply (map_percent_in_range _ _ _ Hmn Hmx Hlt Hin).
Qed.

(** ** Equal boundaries *)

Lemma percent_equal_bounds cur b : percent cur b b = None.
Proof. unfold percent. rewrite map_equal_bounds. reflexivity. Qed.

Lemma percent_defined cur mn mx :
  -2147483648 <= mx - mn < 2147483648 -> mn <> mx -> exists p, percent cur mn mx = Some p.
Proof.
  intros Hrange Hne. unfold percent, Arduino.map. cbv zeta.
  rewrite (to_i32_small (mx - mn)) by lia.
  destruct (Z.eqb_spec (mx - mn) 0) as [? | _]; [lia |].
  eexists. reflexivity.
Qed.

(** C9: the percentage of a step is an integer remap dividing by
    [maxPos - minPos].  A MAX commit made where the MIN commit was made
    leaves [minPos = maxPos]; with equal boundaries every step that is taken
    stops in the division by zero of that remap; and for 16-bit boundaries
    in order, a taken step gets through exactly when [minPos < maxPos]. *)
Theorem equal_boundaries_divide_by_zero (env : Env) :
  (forall w0, calibratingMin w0 = true ->
     exists w1, commit_boundary w0 = Done tt w1 /\
       forall w2, minPos w2 = minPos w1 -> calibratingMin w2 = calibratingMin w1 ->
         currentPos w2 = currentPos w0 ->
         exists w3, commit_boundary w2 = Done tt w3 /\ minPos w3 = maxPos w3) /\
  (forall w moveUp stepDelay, minPos w = maxPos w ->
     move_stepper_single_step env moveUp true stepDelay w = Fault DivisionByZero) /\
  (forall w moveUp stepDelay,
     0 <= minPos w -> minPos w <= maxPos w -> maxPos w < 65536 ->
     ((exists w', move_stepper_single_step env moveUp true stepDelay w = Done tt w') <->
      minPos w < maxPos w)).
Proof.
  split; [| split].
  - intros w0 Hcm.
    destruct (commit_boundary_min w0 Hcm) as (w1 & Hrun1 & Hmn1 & _ & _ & Hcm1 & _).
    exists w1. split; [exact Hrun1 |]. intros w2 Hmn2 Hcm2 Hcur2. rewrite Hcm1 in Hcm2.
    destruct (commit_boundary_max w2 Hcm2) as (w3 & Hrun3 & Hmn3 & Hmx3 & _).
    exists w3. split; [exact Hrun3 |]. lia.
  - intros w moveUp stepDelay Heq.
    pose proof (move_stepper_single_step_taken env moveUp true stepDelay w eq_refl) as Hstep.
    rewrite Heq, percent_equal_bounds in Hstep. exact Hstep.
  - intros w moveUp stepDelay Hmn Hle Hmx.
    pose proof (move_stepper_single_step_taken env moveUp true stepDelay w eq_refl) as Hstep.
    split.
    + intros (w' & Hrun). destruct (Z.eq_dec (minPos w) (maxPos w)) as [Heq | Hne]; [| lia].
      rewrite Heq, percent_equal_bounds in Hstep. congruence.
    + intros Hlt.
      destruct (percent_defined (next_pos moveUp (currentPos w)) (minPos w) (maxPos w))
        as (p & Hp); [lia | lia |].
      rewrite Hp in Hstep. destruct Hstep as (w' & Hrun & _). exists w'. exact Hrun.
Qed.

(** ** Idle bookkeeping *)

Lemma updateSleepAndAutoSave_saves env w :
  idle_time env w >= AUTO_SAVE_INTERVAL ->
  eepromSaved w = false ->
  time_since_save env w >= AUTO_SAVE_INTERVAL ->
  lastSaved w <> currentPos w ->
  exists w' pre,
    updateSleepAndAutoSave env w = Done tt w' /\
    eeprom w' = eeprom_put16 EEPROM_CURR_POS_ADDR (currentPos w) (eeprom w) /\
    lastSaved w' = currentPos w /\ eepromSaved w' = true /\
    lastEepromSaveTime w' = Arduino.to_u32 (env_millis env (S (S (S (tick w))))) /\
    trace w' = trace w ++ pre ++ [EepromPut EEPROM_CURR_POS_ADDR (currentPos w);
                                  DigitalWrite SLEEP_PIN LOW] /\
    eeprom_puts pre = [].
Proof.
  unfold idle_time, time_since_save. intros Hidle Hflag Hsince Hdiff.
  apply Z.ge_le, Z.geb_le in Hidle. apply Z.ge_le, Z.geb_le in Hsince.
  apply Z.eqb_neq in Hdiff.
  unfold updateSleepAndAutoSave, auto_save, millis, disableMotor, sleepDriver. unfold_sketch.
  cbn.
  destruct (_ >=? MOTOR_DISABLE_INTERVAL); cbn; [destruct (motorDisabled w); cbn |];
    rewrite Hidle; cbn; rewrite Hflag; cbn; rewrite Hsince; cbn; rewrite Hdiff; cbn.
  - eexists. exists []. split; [reflexivity |]. cbn.
    repeat split. rewrite <- app_assoc. reflexivity.
  - eexists. exists [DigitalWrite MOTOR_ENABLE_PIN HIGH]. split; [reflexivity |]. cbn.
    repeat split. rewrite <- !app_assoc. reflexivity.
  - eexists. exists []. split; [reflexivity |]. cbn.
    repeat split. rewrite <- app_assoc. reflexivity.
Qed.

(** Once the saved flag is set, no later call writes the position. *)
Lemma updateSleepAndAutoSave_flag_set env w :
  eepromSaved w = true ->
  exists w', updateSleepAndAutoSave env w = Done tt w' /\
    eeprom w' = eeprom w /\ lastSaved w' = lastSaved w /\
    currentPos w' = currentPos w /\ eepromSaved w' = true /\
    eeprom_puts (trace w') = eeprom_puts (trace w).
Proof.
  intros Hflag.
  unfold updateSleepAndAutoSave, auto_save, millis, disableMotor, sleepDriver. unfold_sketch.
  cbn.
  destruct (_ >=? MOTOR_DISABLE_INTERVAL); cbn; [destruct (motorDisabled w); cbn |];
    (destruct (_ >=? AUTO_SAVE_INTERVAL); cbn; [rewrite Hflag; cbn |]);
    (eexists; split; [reflexivity |]); cbn; repeat split; try assumption;
    unfold eeprom_puts; rewrite ?List.filter_app; cbn; rewrite ?app_nil_r; reflexivity.
Qed.

(** C3, on the code: the first save sets [eepromSaved], and nothing ever
    clears it.  In the session [remote_env] the second turn saves position
    510; the third moves to 250; in the fourth the motor has been idle for
    599 s, the position differs from the saved one and the last save is
    600 s old, and yet nothing is written: the store keeps 510. *)
Theorem autosave_stops_after_first_save :
  (setup remote_env 0 ;; loops remote_env 3 ;; updateLEDs remote_env) (power_on ∅)
    = Done tt fourth_turn /\
  idle_time remote_env fourth_turn >= AUTO_SAVE_INTERVAL /\
  time_since_save remote_env fourth_turn >= AUTO_SAVE_INTERVAL /\
  lastSaved fourth_turn <> currentPos fourth_turn /\
  exists w', updateSleepAndAutoSave remote_env fourth_turn = Done tt w' /\
    eeprom w' = eeprom fourth_turn /\
    eeprom_get16 (eeprom w') EEPROM_CURR_POS_ADDR = 510 /\
    currentPos w' = 250 /\
    eeprom_puts (trace w') = eeprom_puts (trace fourth_turn).
Proof.
  split; [vm_compute; reflexivity |].
  split; [vm_compute; discriminate |].
  split; [vm_compute; discriminate |].
  split; [vm_compute; discriminate |].
  destruct (updateSleepAndAutoSave_flag_set remote_env fourth_turn)
    as (w' & Hrun & Hee & _ & Hcur & _ & Hputs); [vm_compute; reflexivity |].
  exists w'. split; [exact Hrun |]. split; [exact Hee |].
  rewrite Hee, Hcur. split; [vm_compute; reflexivity |].
  split; [vm_compute; reflexivity | exact Hputs].
Qed.

(** When the threshold is reached the boundary is committed, in a state
    that differs from the one before by the timer and the tick only. *)
Lemma hold_logic_reached env w :
  hold_elapsed env w >= HOLD_TIMER_THRESHOLD ->
  exists w1 w',
    currentPos w1 = currentPos w /\ minPos w1 = minPos w /\
    calibratingMin w1 = calibratingMin w /\
    commit_boundary w1 = Done tt w' /\
    hold_logic env true w = Done tt (set_holdTimer 0 w').
Proof.
  unfold hold_elapsed, armed_timer. intros Hge. apply Z.ge_le, Z.geb_le in Hge.
  unfold hold_logic, millis, bind, gets, observe, modify, ret.
  destruct (holdTimer w =? 0) eqn:Eh; cbn [tick set_tick set_holdTimer holdTimer];
    rewrite Hge.
  - destruct (calibratingMin w) eqn:Ecm.
    + destruct (commit_boundary_min
                  (set_tick (S (S (tick w)))
                     (set_holdTimer (Arduino.to_u32 (env_millis env (tick w)))
                        (set_tick (S (tick w)) w)))) as (w' & Hrun & _); [exact Ecm |].
      eexists. exists w'. rewrite Hrun. repeat split; exact Ecm.
    + destruct (commit_boundary_max
                  (set_tick (S (S (tick w)))
                     (set_holdTimer (Arduino.to_u32 (env_millis env (tick w)))
                        (set_tick (S (tick w)) w)))) as (w' & Hrun & _); [exact Ecm |].
      eexists. exists w'. rewrite Hrun. repeat split; exact Ecm.
  - destruct (calibratingMin w) eqn:Ecm.
    + destruct (commit_boundary_min (set_tick (S (tick w)) w)) as (w' & Hrun & _);
        [exact Ecm |].
      eexists. exists w'. rewrite Hrun. repeat split; exact Ecm.
    + destruct (commit_boundary_max (set_tick (S (tick w)) w)) as (w' & Hrun & _);
        [exact Ecm |].
      eexists. exists w'. rewrite Hrun. repeat split; exact Ecm.
Qed.

(** A whole cycle through [run_calibration_mode]: both buttons held past
    the threshold at position 800, then again at position 200. *)
Example calibration_800_then_200 :
  exists w1 w3,
    run_calibration_mode held_env (holding 1000 (at_positions 0 1000 800)) = Done tt w1 /\
    minPos w1 = 800 /\ calibratingMin w1 = false /\ holdTimer w1 = 0 /\
    run_calibration_mode held_env (holding 1000 (set_currentPos 200 w1)) = Done tt w3 /\
    minPos w3 = 200 /\ maxPos w3 = 800 /\ calibratingMin w3 = true /\
    eeprom_get16 (eeprom w3) EEPROM_MIN_POS_ADDR = 200 /\
    eeprom_get16 (eeprom w3) EEPROM_MAX_POS_ADDR = 800.
Proof.
  destruct (run_calibration_mode held_env (holding 1000 (at_positions 0 1000 800)))
    as [[] w1 | f] eqn:E1; [| vm_compute in E1; discriminate E1].
  destruct (run_calibration_mode held_env (holding 1000 (set_currentPos 200 w1)))
    as [[] w3 | f] eqn:E3.
  - exists w1, w3. vm_compute in E1. injection E1 as <-.
    vm_compute in E3. injection E3 as <-.
    vm_compute. repeat split; reflexivity.
  - vm_compute in E1. injection E1 as <-. vm_compute in E3. discriminate E3.
Qed.

Lemma calibration_cycle_800_200 :
  exists w1 w3,
    commit_boundary (at_positions 0 1000 800) = Done tt w1 /\
    commit_boundary (set_currentPos 200 w1) = Done tt w3 /\
    minPos w3 = 200 /\ maxPos w3 = 800.
Proof.
  destruct (calibration_cycle_ordered (at_positions 0 1000 800) eq_refl)
    as (w1 & Hrun1 & Hmn1 & Hnext).
  destruct (Hnext (set_currentPos 200 w1) eq_refl eq_refl)
    as (w3 & Hrun3 & _ & Hcase & _).
  exists w1, w3. split; [exact Hrun1 |]. split; [exact Hrun3 |].
  cbn in Hcase. rewrite Hmn1 in Hcase. cbn in Hcase. exact Hcase.
Defined.

Lemma step_from_998_reports_99 :
  exists w' p,
    move_stepper_single_step quiet_env true false STEP_DELAY_CALIBRATION
      (at_positions 0 1000 998) = Done tt w' /\
    last (trace w') = Some (SetActualLiftPercent p) /\
    p = (currentPos w' - minPos w') * 100 / (maxPos w' - minPos w') /\
    0 <= p <= 100.
Proof.
  apply step_reports_floor_percent.
  - cbn. lia.
  - cbn. lia.
  - cbn. lia.
  - reflexivity.
  - vm_compute. split; discriminate.
Defined.

Lemma step_up_at_1000_refused :
  move_stepper_single_step quiet_env true false STEP_DELAY_CALIBRATION
    (at_positions 0 1000 1000) = Done tt (at_positions 0 1000 1000).
Proof.
  apply single_step_refused_at_limit. left. split; [reflexivity | cbn; lia].
Defined.

Lemma drive_500_to_750 :
  (exists w',
     step_until quiet_env MAX_ITERATIONS (direction 500 750) 750 (at_positions 0 1000 500)
       = Done tt w' /\
     currentPos w' = 750 /\
     step_pulses (trace w') = 250%nat /\
     tick w' = 250%nat) /\
  (750 = 500 ->
     step_until quiet_env MAX_ITERATIONS (direction 500 750) 750 (at_positions 0 1000 500)
       = Done tt (at_positions 0 1000 500)).
Proof.
  apply (step_until_terminates quiet_env (at_positions 0 1000 500) 750); cbn; lia.
Defined.

Lemma zero_request_after_boot :
  lastReqLiftRaw booted = 0 /\
  run_matter_mode quiet_env booted = Done tt (set_tick (S (tick booted)) booted) /\
  trace (set_tick (S (tick booted)) booted) = trace booted.
Proof.
  destruct (zero_request_taken_as_handled quiet_env ∅ 0 booted) as (H0 & _ & Hzero).
  - vm_compute. reflexivity.
  - split; [exact H0 |]. apply Hzero; reflexivity.
Defined.

Lemma reentry_env_pressed (k : nat) :
  env_pin reentry_env k MOVE_UP_BUTTON = LOW \/ env_pin reentry_env k MOVE_DOWN_BUTTON = LOW ->
  1000 <= env_millis reentry_env k <= 1600.
Proof.
  cbv [reentry_env env_pin env_millis].
  destruct (Nat.ltb_spec k 48) as [Hk | Hk].
  - intros _.
    destruct (Nat.ltb_spec k 18); [lia |].
    destruct (Nat.ltb_spec k 43); [lia |].
    destruct (Nat.ltb_spec k 48); lia.
  - intros [H | H]; discriminate H.
Qed.

(** C7, on the code: a hold is not abandoned when calibration mode is left.
    In the session [reentry_env] both buttons are down from power-on and
    are let go at 1.6 s, so that any two reads that find a button down are
    less than the hold threshold apart.  The second turn of [loop] starts
    the hold timer at 1.1 s; the mode switch then reads remote control for
    two turns, which run [run_matter_mode] and touch neither the timer nor
    the debounced button states.  When calibration mode is entered again at
    61.6 s, with both buttons released at every read from then on, that one
    turn stores the current position 500 as the lower boundary, writes it
    to the store and moves on to the upper boundary. *)
Theorem hold_survives_leaving_calibration :
  (setup reentry_env 0 ;; loops reentry_env 4) (power_on ∅) = Done tt before_reentry /\
  (forall k k',
     env_pin reentry_env k MOVE_UP_BUTTON = LOW \/ env_pin reentry_env k MOVE_DOWN_BUTTON = LOW ->
     env_pin reentry_env k' MOVE_UP_BUTTON = LOW \/ env_pin reentry_env k' MOVE_DOWN_BUTTON = LOW ->
     env_millis reentry_env k' - env_millis reentry_env k < HOLD_TIMER_THRESHOLD) /\
  (forall k, (tick before_reentry <= k)%nat ->
     env_pin reentry_env k MODE_SWITCH_PIN = HIGH /\
     env_pin reentry_env k MOVE_UP_BUTTON = HIGH /\
     env_pin reentry_env k MOVE_DOWN_BUTTON = HIGH) /\
  calibratingMin before_reentry = true /\
  minPos before_reentry = 0 /\
  currentPos before_reentry = 500 /\
  holdTimer before_reentry = 1100 /\
  exists w',
    loop reentry_env before_reentry = Done tt w' /\
    calibratingMin w' = false /\
    minPos w' = 500 /\
    eeprom_get16 (eeprom w') EEPROM_MIN_POS_ADDR = 500 /\
    eeprom_puts (trace w') =
      eeprom_puts (trace before_reentry) ++ [EepromPut EEPROM_MIN_POS_ADDR 500] /\
    ~ no_commit before_reentry w'.
Proof.
  split; [vm_compute; reflexivity |].
  split.
  { intros k k' Hk Hk'.
    apply reentry_env_pressed in Hk. apply reentry_env_pressed in Hk'.
    unfold HOLD_TIMER_THRESHOLD. lia. }
  split.
  { intros k Hk.
    assert (Ht : tick before_reentry = 53%nat) by (vm_compute; reflexivity).
    rewrite Ht in Hk. cbv [reentry_env env_pin].
    destruct (Nat.ltb_spec k 43); [lia |].
    destruct (Nat.ltb_spec k 53); [lia |].
    destruct (Nat.ltb_spec k 48); [lia |].
    repeat split. }
  split; [vm_compute; reflexivity |].
  split; [vm_compute; reflexivity |].
  split; [vm_compute; reflexivity |].
  split; [vm_compute; reflexivity |].
  destruct (loop reentry_env before_reentry) as [[] w' | f] eqn:Hloop;
    [| vm_compute in Hloop; discriminate Hloop].
  exists w'. split; [reflexivity |].
  assert (Hw : Done tt w' = loop reentry_env before_reentry) by (symmetry; exact Hloop).
  clear Hloop.
  vm_compute in Hw. injection Hw as ->.
  split; [reflexivity |].
  split; [reflexivity |].
  split; [vm_compute; reflexivity |].
  split; [vm_compute; reflexivity |].
  intros (Hmin & _). vm_compute in Hmin. discriminate Hmin.
Qed.

(** With both buttons down at every read, the turn of [loop] in which the
    upper button has been steady for longer than the debounce window and
    the lower one, first read a millisecond later, has not, takes the
    upper-button branch: it moves the blind five steps up and leaves the
    hold timer at zero. *)
Example up_branch_fires_at_hold_onset :
  (setup onset_env 0 ;; loop onset_env) (power_on ∅) = Done tt onset_first_turn /\
  (forall k, env_pin onset_env k MOVE_UP_BUTTON = LOW /\
             env_pin onset_env k MOVE_DOWN_BUTTON = LOW) /\
  currentPos onset_first_turn = 500 /\
  exists w',
    loop onset_env onset_first_turn = Done tt w' /\
    currentPos w' = 505 /\
    step_pulses (trace w') = (step_pulses (trace onset_first_turn) + 5)%nat /\
    holdTimer w' = 0.
Proof.
  split; [vm_compute; reflexivity |].
  split; [intros k; split; reflexivity |].
  split; [vm_compute; reflexivity |].
  destruct (loop onset_env onset_first_turn) as [[] w' | f] eqn:Hloop;
    [| vm_compute in Hloop; discriminate Hloop].
  exists w'. split; [reflexivity |].
  assert (Hw : Done tt w' = loop onset_env onset_first_turn) by (symmetry; exact Hloop).
  clear Hloop.
  vm_compute in Hw. injection Hw as ->.
  split; [reflexivity |].
  split; [vm_compute; reflexivity |].
  reflexivity.
Qed.

(** * Further properties of the sketch *)

(** ** The percentage as a function of the position *)

(** X1: between 16-bit boundaries with [minPos < maxPos] the percentage is
    0 at [minPos], 100 at [maxPos], and does not decrease when the position
    increases. *)
Theorem percent_monotone (mn mx a b : Z) :
  0 <= mn -> mx < 65536 -> mn < mx -> mn <= a -> a <= b -> b <= mx ->
  percent mn mn mx = Some 0 /\ percent mx mn mx = Some 100 /\
  exists pa pb, percent a mn mx = Some pa /\ percent b mn mx = Some pb /\ pa <= pb.
Proof.
  intros Hmn Hmx Hlt Ha Hab Hb.
  rewrite !percent_in_range by lia.
  split; [| split].
  - rewrite Z.sub_diag. reflexivity.
  - replace ((mx - mn) * 100) with (100 * (mx - mn)) by lia.
    rewrite Z.div_mul by lia. reflexivity.
  - eexists. eexists. split; [reflexivity |]. split; [reflexivity |].
    apply Z.div_le_mono; lia.
Qed.

Lemma percent_monotone_0_1000 :
  percent 0 0 1000 = Some 0 /\ percent 1000 0 1000 = Some 100 /\
  exists pa pb, percent 250 0 1000 = Some pa /\ percent 999 0 1000 = Some pb /\ pa <= pb.
Proof. apply percent_monotone; lia. Defined.

(** ** Steps and the boundaries *)

Lemma at_limit_false_inv moveUp w :
  at_limit moveUp false w = false ->
  if moveUp then currentPos w < maxPos w else minPos w < currentPos w.
Proof.
  unfold at_limit. destruct moveUp; cbn.
  - rewrite orb_false_r. intros H.
    destruct (Z.geb_spec (currentPos w) (maxPos w)); [discriminate | lia].
  - intros H. apply Z.leb_gt in H. lia.
Qed.

(** X2: with [ignoreLimits = false], a step from a position between the
    16-bit boundaries always returns and ends between the boundaries, which
    it leaves as they are. *)
Theorem limited_step_stays_in_range (env : Env) (w : World) (moveUp : bool) (stepDelay : Z) :
  0 <= minPos w -> maxPos w < 65536 ->
  minPos w <= currentPos w -> currentPos w <= maxPos w ->
  exists w', move_stepper_single_step env moveUp false stepDelay w = Done tt w' /\
    minPos w' = minPos w /\ maxPos w' = maxPos w /\
    minPos w' <= currentPos w' <= maxPos w'.
Proof.
  intros Hmn Hmx Hlo Hhi.
  destruct (at_limit moveUp false w) eqn:Hlim.
  - exists w. split; [| lia].
    unfold move_stepper_single_step, bind, gets. rewrite Hlim. reflexivity.
  - pose proof (at_limit_false_inv moveUp w Hlim) as Hroom.
    pose proof (move_stepper_single_step_taken env moveUp false stepDelay w Hlim) as Hstep.
    assert (Hnext : minPos w <= next_pos moveUp (currentPos w) <= maxPos w).
    { unfold next_pos. destruct moveUp; cbn in Hroom; rewrite to_u16_small; lia. }
    assert (Hlt : minPos w < maxPos w) by (destruct moveUp; cbn in Hroom; lia).
    rewrite (percent_in_range _ (minPos w) (maxPos w)) in Hstep by lia.
    destruct Hstep as (w' & Hrun & Hcur & _ & _ & Hmn' & Hmx' & _).
    exists w'. split; [exact Hrun |]. rewrite Hcur, Hmn', Hmx'. lia.
Qed.

Lemma limited_step_from_999 :
  exists w', move_stepper_single_step quiet_env true false STEP_DELAY_CALIBRATION
               (at_positions 0 1000 999) = Done tt w' /\
    minPos w' = 0 /\ maxPos w' = 1000 /\ minPos w' <= currentPos w' <= maxPos w'.
Proof.
  apply (limited_step_stays_in_range quiet_env (at_positions 0 1000 999)); cbn; lia.
Defined.

(** ** A single-button press *)

Lemma upd_id {A : Type} (f : Pin -> A) (p q : Pin) : upd f p (f p) q = f q.
Proof. unfold upd. destruct (decide (q = p)) as [-> | _]; reflexivity. Qed.

(** A button whose level agrees with its debounced state is reported in
    that state, whatever the clock reads. *)
Lemma is_button_pressed_steady env w pin (b : bool) :
  env_pin env (tick w) MODE_SWITCH_PIN = HIGH ->
  env_pin env (S (tick w)) pin = negb b ->
  stable w pin = b ->
  exists w', is_button_pressed env pin w = Done b w' /\
    debounce_only w w' /\ tick w' = S (S (S (tick w))) /\
    (forall q, stable w' q = stable w q).
Proof.
  intros Hsw Hpin Hst. unfold is_button_pressed, digitalRead, millis. unfold_sketch.
  cbn. rewrite Hsw. cbn. rewrite Hpin, negb_involutive. cbn.
  destruct (negb (eqb b (lastRaw w pin))); cbn;
    match goal with |- context [if ?c then _ else _] => destruct c end; cbn;
    rewrite ?upd_same, ?Hst;
    (eexists; split; [reflexivity |]);
    (split; [destruct w; reflexivity |]);
    (split; [reflexivity |]); cbn; intros q; rewrite <- ?Hst, ?upd_id; reflexivity.
Qed.

Lemma step_pulses_step_outputs (moveUp : bool) (stepDelay cur p : Z) :
  step_pulses (step_outputs moveUp stepDelay cur ++ [SetActualLiftPercent p]) = 1%nat.
Proof. destruct moveUp; reflexivity. Qed.

(** A step with the limits ignored, between boundaries that differ. *)
Lemma unlimited_step env moveUp stepDelay w :
  -2147483648 <= maxPos w - minPos w < 2147483648 -> minPos w <> maxPos w ->
  exists w', move_stepper_single_step env moveUp true stepDelay w = Done tt w' /\
    currentPos w' = next_pos moveUp (currentPos w) /\
    step_pulses (trace w') = S (step_pulses (trace w)) /\
    no_commit w w'.
Proof.
  intros Hrange Hne.
  pose proof (move_stepper_single_step_taken env moveUp true stepDelay w eq_refl) as Hstep.
  destruct (percent_defined (next_pos moveUp (currentPos w)) (minPos w) (maxPos w) Hrange Hne)
    as (p & Hp).
  rewrite Hp in Hstep. destruct Hstep as (w' & Hrun & Hcur & Htr & _ & Hkeep).
  exists w'. split; [exact Hrun |]. split; [exact Hcur |]. split; [| exact Hkeep].
  rewrite Htr, step_pulses_app, step_pulses_step_outputs. lia.
Qed.

Lemma to_u16_range z : 0 <= Arduino.to_u16 z < 65536.
Proof. unfold Arduino.to_u16. apply Z.mod_pos_bound. lia. Qed.

Lemma next_pos_iter (moveUp : bool) (cur : Z) (n : nat) :
  Arduino.to_u16 (if moveUp then next_pos moveUp cur + Z.of_nat n
                  else next_pos moveUp cur - Z.of_nat n) =
  Arduino.to_u16 (if moveUp then cur + Z.of_nat (S n) else cur - Z.of_nat (S n)).
Proof.
  unfold next_pos, Arduino.to_u16. destruct moveUp.
  - rewrite Zplus_mod_idemp_l. f_equal. lia.
  - rewrite Zminus_mod_idemp_l. f_equal. lia.
Qed.

Lemma unlimited_steps env moveUp stepDelay (n : nat) :
  forall w,
    -2147483648 <= maxPos w - minPos w < 2147483648 -> minPos w <> maxPos w ->
    u16 (currentPos w) ->
    exists w',
      repeat_n n (move_stepper_single_step env moveUp true stepDelay) w = Done tt w' /\
      currentPos w' =
        Arduino.to_u16 (if moveUp then currentPos w + Z.of_nat n else currentPos w - Z.of_nat n) /\
      step_pulses (trace w') = (step_pulses (trace w) + n)%nat /\
      no_commit w w'.
Proof.
  induction n as [| n IH]; intros w Hrange Hne Hcur.
  - exists w. split; [reflexivity |]. split.
    + cbn. rewrite Z.add_0_r, Z.sub_0_r. destruct moveUp; symmetry; apply to_u16_small, Hcur.
    + split; [lia | apply no_commit_refl].
  - destruct (unlimited_step env moveUp stepDelay w Hrange Hne)
      as (w1 & Hrun1 & Hcur1 & Hp1 & Hk1).
    pose proof Hk1 as (Hmn1 & Hmx1 & _ & _).
    destruct (IH w1) as (w' & Hrun & Hcur' & Hp' & Hk');
      [rewrite Hmn1, Hmx1; exact Hrange | rewrite Hmn1, Hmx1; exact Hne
      | rewrite Hcur1; apply to_u16_range |].
    exists w'. split; [| split; [| split]].
    + cbn [repeat_n]. unfold bind. rewrite Hrun1. exact Hrun.
    + rewrite Hcur', Hcur1. apply next_pos_iter.
    + lia.
    + apply (no_commit_trans w w1 w' Hk1 Hk').
Qed.

(** X3: a press of one button only, in calibration mode: when one button
    is debounced as pressed and reads pressed, and the other is debounced as
    released and reads released, the single-button part moves the motor by
    exactly [STEPS_PER_PRESS] = 5 steps in that direction, limits ignored
    (wrapping at the ends of the 16-bit range), and commits nothing.  The
    boundaries must differ, for the percentage of each step. *)
Theorem single_press_moves_five (env : Env) (w : World) (up : bool) :
  one_held env up (tick w) ->
  stable w MOVE_UP_BUTTON = up -> stable w MOVE_DOWN_BUTTON = negb up ->
  u16 (minPos w) -> u16 (maxPos w) -> minPos w <> maxPos w -> u16 (currentPos w) ->
  exists w', single_button_moves env w = Done tt w' /\
    currentPos w' = Arduino.to_u16 (if up then currentPos w + 5 else currentPos w - 5) /\
    step_pulses (trace w') = (step_pulses (trace w) + 5)%nat /\
    no_commit w w'.
Proof.
  intros Hheld Hup Hdown Hmn Hmx Hne Hcur. unfold u16 in *.
  destruct (Hheld (tick w) ltac:(lia)) as (Hsw0 & _ & _).
  destruct (Hheld (S (tick w)) ltac:(lia)) as (_ & Hu0 & _).
  destruct (is_button_pressed_steady env w MOVE_UP_BUTTON up)
    as (w1 & E1 & D1 & T1 & S1); auto.
  destruct (Hheld (tick w1) ltac:(lia)) as (Hsw1 & _ & _).
  destruct (Hheld (S (tick w1)) ltac:(lia)) as (_ & _ & Hd1).
  destruct (is_button_pressed_steady env w1 MOVE_DOWN_BUTTON (negb up))
    as (w2 & E2 & D2 & T2 & S2); auto.
  { rewrite negb_involutive. exact Hd1. }
  { rewrite S1. exact Hdown. }
  destruct (Hheld (tick w2) ltac:(lia)) as (Hsw2 & _ & _).
  destruct (Hheld (S (tick w2)) ltac:(lia)) as (_ & Hu2 & _).
  destruct (is_button_pressed_steady env w2 MOVE_UP_BUTTON up)
    as (w3 & E3 & D3 & T3 & S3); auto.
  { rewrite S2, S1. exact Hup. }
  pose proof (debounce_only_trans _ _ _ D1 D2) as D12.
  pose proof (debounce_only_trans _ _ _ D12 D3) as D13.
  destruct up; cbn [negb] in *.
  - (* the up button: the first test holds *)
    destruct (unlimited_steps env true STEP_DELAY_CALIBRATION (Z.to_nat STEPS_PER_PRESS) w2)
      as (w' & Hrun & Hc & Hp & Hk); [rewrite D12; cbn; unfold u16; lia .. |].
    exists w'. split.
    + unfold single_button_moves, and_then, not_, bind, ret.
      rewrite E1. rewrite E2; cbn [negb]. exact Hrun.
    + rewrite D12 in Hc, Hp, Hk. cbn in Hc, Hp.
      split; [exact Hc |]. split; [exact Hp |].
      destruct Hk as (? & ? & ? & ?). repeat split; assumption.
  - (* the down button: the first test fails on the up button, the second holds *)
    destruct (unlimited_steps env false STEP_DELAY_CALIBRATION (Z.to_nat STEPS_PER_PRESS) w3)
      as (w' & Hrun & Hc & Hp & Hk); [rewrite D13; cbn; unfold u16; lia .. |].
    exists w'. split.
    + unfold single_button_moves, and_then, not_, bind, ret.
      rewrite E1. rewrite E2. rewrite E3; cbn [negb]. exact Hrun.
    + rewrite D13 in Hc, Hp, Hk. cbn in Hc, Hp.
      split; [exact Hc |]. split; [exact Hp |].
      destruct Hk as (? & ? & ? & ?). repeat split; assumption.
Qed.

Lemma press_up_from_998 :
  exists w', single_button_moves up_env pressing_up = Done tt w' /\
    currentPos w' = 1003 /\
    step_pulses (trace w') = 5%nat /\
    no_commit pressing_up w'.
Proof.
  apply (single_press_moves_five up_env pressing_up true).
  - intros k _. repeat split.
  - reflexivity.
  - reflexivity.
  - unfold u16. cbn. lia.
  - unfold u16. cbn. lia.
  - cbn. lia.
  - unfold u16. cbn. lia.
Defined.

(** ** What the store holds after a commit *)

Ltac eeprom_cells :=
  unfold stored_min, stored_max, stored_current, stored_flag,
    EEPROM_MIN_POS_ADDR, EEPROM_MAX_POS_ADDR, EEPROM_CURR_POS_ADDR, EEPROM_FLAG_ADDR.

(** X4: a MIN commit stores the position in the MIN cell and leaves the
    three other cells of the record as they were: neither [maxPos] nor
    [currentPos] is persisted by it. *)
Theorem min_commit_stores_min_only (w : World) :
  calibratingMin w = true -> u16 (currentPos w) ->
  exists w', commit_boundary w = Done tt w' /\
    stored_min (eeprom w') = currentPos w /\
    stored_max (eeprom w') = stored_max (eeprom w) /\
    stored_current (eeprom w') = stored_current (eeprom w) /\
    stored_flag (eeprom w') = stored_flag (eeprom w).
Proof.
  intros Hcm Hcur.
  destruct (commit_boundary_min w Hcm) as (w' & Hrun & _ & _ & _ & _ & Hee).
  exists w'. split; [exact Hrun |]. rewrite Hee. eeprom_cells.
  split; [apply eeprom_get16_put16_same, Hcur |].
  repeat split; apply eeprom_get16_put16_other; lia.
Qed.

Lemma min_commit_at_120 :
  exists w', commit_boundary (at_positions 0 1000 120) = Done tt w' /\
    stored_min (eeprom w') = 120 /\
    stored_max (eeprom w') = stored_max ∅ /\
    stored_current (eeprom w') = stored_current ∅ /\
    stored_flag (eeprom w') = stored_flag ∅.
Proof.
  apply (min_commit_stores_min_only (at_positions 0 1000 120)).
  - reflexivity.
  - unfold u16. cbn. lia.
Defined.

Lemma commit_boundary_max_store (w : World) :
  calibratingMin w = false ->
  exists w', commit_boundary w = Done tt w' /\
    minPos w' = Z.min (currentPos w) (minPos w) /\
    maxPos w' = Z.max (currentPos w) (minPos w) /\
    currentPos w' = currentPos w /\
    eeprom w' =
      eeprom_put16 EEPROM_CURR_POS_ADDR (currentPos w)
        (eeprom_put16 EEPROM_MAX_POS_ADDR (Z.max (currentPos w) (minPos w))
           (eeprom_put16 EEPROM_MIN_POS_ADDR (Z.min (currentPos w) (minPos w)) (eeprom w))).
Proof.
  intros Hcm. unfold commit_boundary, flash_both_leds. unfold_sketch.
  rewrite Hcm.
  destruct (Z.ltb_spec (currentPos w) (minPos w)) as [Hlt | Hge]; cbn;
    (eexists; split; [reflexivity |]); cbn.
  - rewrite Z.min_l, Z.max_r by lia. repeat split.
  - rewrite Z.min_r, Z.max_l by lia. repeat split.
Qed.

(** X5: what a MAX commit stores is what a restart reads back: for 16-bit
    positions, loading the positions from the store the commit leaves gives
    the [minPos], [maxPos] and [currentPos] the commit left in memory, in
    whatever state the load starts. *)
Theorem max_commit_round_trip (w v : World) :
  calibratingMin w = false -> u16 (minPos w) -> u16 (currentPos w) ->
  exists w' v',
    commit_boundary w = Done tt w' /\
    load_positions_from_eeprom (set_eeprom (eeprom w') v) = Done tt v' /\
    minPos v' = minPos w' /\ maxPos v' = maxPos w' /\ currentPos v' = currentPos w'.
Proof.
  intros Hcm Hmn Hcur. unfold u16 in *.
  destruct (commit_boundary_max_store w Hcm) as (w' & Hrun & Hmn' & Hmx' & Hcur' & Hee).
  destruct (load_positions_from_eeprom_reads (set_eeprom (eeprom w') v))
    as (v' & Hload & Lmn & Lmx & Lcur).
  exists w', v'. split; [exact Hrun |]. split; [exact Hload |].
  cbn [eeprom set_eeprom] in Lmn, Lmx, Lcur.
  rewrite Lmn, Lmx, Lcur, Hee, Hmn', Hmx', Hcur'.
  unfold EEPROM_MIN_POS_ADDR, EEPROM_MAX_POS_ADDR, EEPROM_CURR_POS_ADDR.
  split; [| split].
  - rewrite !eeprom_get16_put16_other by lia. apply eeprom_get16_put16_same. lia.
  - rewrite eeprom_get16_put16_other by lia. apply eeprom_get16_put16_same. lia.
  - apply eeprom_get16_put16_same. lia.
Qed.

Lemma max_commit_round_trip_50_120 :
  exists w' v',
    commit_boundary (calibrating_max 120 50) = Done tt w' /\
    load_positions_from_eeprom (set_eeprom (eeprom w') (power_on ∅)) = Done tt v' /\
    minPos v' = minPos w' /\ maxPos v' = maxPos w' /\ currentPos v' = currentPos w'.
Proof.
  apply (max_commit_round_trip (calibrating_max 120 50) (power_on ∅)).
  - reflexivity.
  - unfold u16. cbn. lia.
  - unfold u16. cbn. lia.
Defined.

(** ** The idle bookkeeping, case by case *)

Lemma motor_disables_app tr1 tr2 :
  motor_disables (tr1 ++ tr2) = (motor_disables tr1 + motor_disables tr2)%nat.
Proof. apply count_occ_app. Qed.

Ltac idle_cases :=
  unfold updateSleepAndAutoSave, auto_save, millis, disableMotor, sleepDriver;
  unfold_sketch; cbn;
  repeat (match goal with
          | |- context [if negb ?c then _ else _] => destruct c eqn:?
          | |- context [if ?c then _ else _] => destruct c eqn:?
          end; cbn).

(** X6: the motor stage is disabled once per idle period.  A call made at
    least [MOTOR_DISABLE_INTERVAL] after the last move writes the disable
    level exactly when the stage was not yet marked disabled, and marks it;
    a call made sooner writes none and clears the mark. *)
Theorem motor_stage_disabled_once (env : Env) (w : World) :
  exists w', updateSleepAndAutoSave env w = Done tt w' /\
    motorDisabled w' = (idle_at_entry env w >=? MOTOR_DISABLE_INTERVAL) /\
    motor_disables (trace w') =
      (motor_disables (trace w) +
       (if (idle_at_entry env w >=? MOTOR_DISABLE_INTERVAL) && negb (motorDisabled w)
        then 1 else 0))%nat.
Proof.
  unfold idle_at_entry. idle_cases;
    (eexists; split; [reflexivity |]); cbn;
    (split; [first [reflexivity | congruence] |]);
    rewrite ?motor_disables_app;
    repeat match goal with
           | |- context [motor_disables [?e]] =>
               change (motor_disables [e]) with 0%nat
               || change (motor_disables [e]) with 1%nat
           end; lia.
Qed.

(** X7: the sleep pin follows the idle time.  Every call of
    [updateSleepAndAutoSave] returns, and the last thing it does is to write
    the sleep pin: LOW (asleep) when the second clock read is at least
    [AUTO_SAVE_INTERVAL] after the last move, HIGH (awake) otherwise. *)
Theorem sleep_pin_follows_idle_time (env : Env) (w : World) :
  exists w', updateSleepAndAutoSave env w = Done tt w' /\
    last (trace w') =
      Some (DigitalWrite SLEEP_PIN
              (if idle_time env w >=? AUTO_SAVE_INTERVAL then LOW else HIGH)).
Proof.
  unfold idle_time. idle_cases;
    (eexists; split; [reflexivity |]); cbn; apply last_snoc.
Qed.

Lemma updateSleepAndAutoSave_calibration env w :
  exists w', updateSleepAndAutoSave env w = Done tt w' /\
    minPos w' = minPos w /\ maxPos w' = maxPos w /\
    calibratingMin w' = calibratingMin w /\ holdTimer w' = holdTimer w /\
    stored_min (eeprom w') = stored_min (eeprom w) /\
    stored_max (eeprom w') = stored_max (eeprom w) /\
    stored_flag (eeprom w') = stored_flag (eeprom w).
Proof.
  idle_cases; (eexists; split; [reflexivity |]); cbn; eeprom_cells;
    rewrite ?eeprom_get16_put16_other by lia; repeat split.
Qed.

(** X8: the idle bookkeeping touches nothing but the saved position.  It
    leaves the positions, the boundaries, the calibration state, the hold
    timer and the time of the last move as they are; in the store it leaves
    the MIN, MAX and flag cells; and when the position is the one last
    saved, it leaves the whole store. *)
Theorem idle_update_footprint (env : Env) (w : World) :
  exists w', updateSleepAndAutoSave env w = Done tt w' /\
    minPos w' = minPos w /\ maxPos w' = maxPos w /\ currentPos w' = currentPos w /\
    calibratingMin w' = calibratingMin w /\ holdTimer w' = holdTimer w /\
    lastMoveTime w' = lastMoveTime w /\
    stored_min (eeprom w') = stored_min (eeprom w) /\
    stored_max (eeprom w') = stored_max (eeprom w) /\
    stored_flag (eeprom w') = stored_flag (eeprom w) /\
    (lastSaved w = currentPos w -> eeprom w' = eeprom w).
Proof.
  idle_cases; (eexists; split; [reflexivity |]); cbn; eeprom_cells;
    rewrite ?eeprom_get16_put16_other by lia; repeat split;
    intros Heq; rewrite Heq, Z.eqb_refl in *; discriminate.
Qed.

(** ** Driving to a target, as a whole *)

Lemma motion_only_refl w : motion_only w w.
Proof. unfold motion_only. destruct w; reflexivity. Qed.

Lemma motion_only_trans w1 w2 w3 :
  motion_only w1 w2 -> motion_only w2 w3 -> motion_only w1 w3.
Proof.
  unfold motion_only. intros H12 H23. rewrite H23 at 1. rewrite H12 at 1. reflexivity.
Qed.

Lemma motion_only_no_commit w w' : motion_only w w' -> no_commit w w'.
Proof. intros H. rewrite H. repeat split. Qed.

Lemma matter_step_full env dir w :
  exists w' evs, matter_step env dir w = Done tt w' /\
    currentPos w' = Arduino.to_u16 (currentPos w + dir) /\
    trace w' = trace w ++ evs /\ step_pulses evs = 1%nat /\
    motion_only w w'.
Proof.
  unfold matter_step, millis. unfold_sketch. cbn.
  eexists. eexists. split; [reflexivity |]. cbn.
  split; [reflexivity |]. split; [rewrite <- !app_assoc; reflexivity |].
  split; [reflexivity | destruct w; reflexivity].
Qed.

Lemma step_until_full env dir newPos (n : nat) :
  forall fuel w,
    dir = 1 \/ dir = -1 ->
    (n <= fuel)%nat -> u16 (currentPos w) -> u16 newPos ->
    newPos = currentPos w + dir * Z.of_nat n ->
    exists w' evs, step_until env fuel dir newPos w = Done tt w' /\
      currentPos w' = newPos /\
      trace w' = trace w ++ evs /\ step_pulses evs = n /\
      motion_only w w'.
Proof.
  unfold u16. induction n as [| n IH]; intros fuel w Hdir Hfuel Hcur Hnew Hdist.
  - exists w, []. split; [apply step_until_done; lia |].
    split; [lia |]. split; [symmetry; apply app_nil_r |].
    split; [reflexivity | apply motion_only_refl].
  - destruct fuel as [| fuel]; [lia |].
    destruct (matter_step_full env dir w) as (w1 & evs1 & Hstep & Hcur1 & Htr1 & Hp1 & Hm1).
    rewrite to_u16_small in Hcur1 by lia.
    rewrite (step_until_iter env fuel dir newPos w w1) by (auto; lia).
    destruct (IH fuel w1) as (w' & evs & Hrun & Hc' & Htr' & Hp' & Hm'); try lia; auto.
    exists w', (evs1 ++ evs). split; [exact Hrun |]. split; [exact Hc' |].
    split; [rewrite Htr', Htr1, app_assoc; reflexivity |].
    split; [rewrite step_pulses_app; lia |].
    apply (motion_only_trans w w1 w' Hm1 Hm').
Qed.

(** The function up to the percentage of its closing log line: the state
    [w1] the loop leaves, and what is left to run in it. *)
Lemma move_stepper_to_position_run (env : Env) (w : World) (newPos : Z) :
  u16 (currentPos w) -> u16 newPos ->
  exists w1 evs,
    motion_only w w1 /\ currentPos w1 = newPos /\
    trace w1 = trace w ++ evs /\
    step_pulses evs = distance (currentPos w) newPos /\
    move_stepper_to_position env newPos w =
      (_ <- map_ (currentPos w1) (minPos w1) (maxPos w1) 0 100 ;; ret tt) w1.
Proof.
  unfold u16. intros Hcur Hnew.
  set (w0 := set_trace
               (((trace w ++ [DigitalWrite SLEEP_PIN HIGH]) ++
                 [DigitalWrite MOTOR_ENABLE_PIN LOW]) ++
                [DigitalWrite DIRECTION_PIN
                   (if direction (currentPos w) newPos >? 0 then HIGH else LOW)]) w).
  assert (Hm0 : motion_only w w0) by (destruct w; reflexivity).
  destruct (step_until_full env (direction (currentPos w) newPos) newPos
              (distance (currentPos w) newPos) MAX_ITERATIONS w0)
    as (w1 & evs & Hloop & Hc1 & Htr1 & Hp1 & Hm1).
  { unfold direction. destruct (currentPos w <? newPos); auto. }
  { unfold distance, MAX_ITERATIONS. lia. }
  { unfold u16. cbn. lia. }
  { unfold u16. lia. }
  { unfold direction, distance. cbn [currentPos w0 set_trace].
    destruct (Z.ltb_spec (currentPos w) newPos); lia. }
  exists w1. eexists. split; [exact (motion_only_trans w w0 w1 Hm0 Hm1) |].
  split; [exact Hc1 |]. split; [| split].
  - rewrite Htr1. cbn [trace w0 set_trace]. rewrite <- !app_assoc. reflexivity.
  - rewrite !step_pulses_app, Hp1.
    destruct (direction (currentPos w) newPos >? 0); reflexivity.
  - unfold move_stepper_to_position, wakeDriver. unfold_sketch. cbv beta iota zeta.
    match goal with
    | |- context [step_until env ?f ?d ?t ?x] =>
        replace (step_until env f d t x)
          with (step_until env MAX_ITERATIONS (direction (currentPos w) newPos) newPos w0)
          by reflexivity
    end.
    rewrite Hloop. reflexivity.
Qed.

Lemma move_stepper_to_position_full (env : Env) (w : World) (newPos : Z) :
  u16 (minPos w) -> u16 (maxPos w) -> u16 (currentPos w) -> u16 newPos ->
  minPos w <> maxPos w ->
  exists w' evs, move_stepper_to_position env newPos w = Done tt w' /\
    currentPos w' = newPos /\
    trace w' = trace w ++ evs /\
    step_pulses evs = distance (currentPos w) newPos /\
    motion_only w w'.
Proof.
  intros Hmn Hmx Hcur Hnew Hne.
  destruct (move_stepper_to_position_run env w newPos Hcur Hnew)
    as (w1 & evs & Hm & Hc1 & Htr & Hp & Hrun).
  pose proof (motion_only_no_commit w w1 Hm) as (Hmn1 & Hmx1 & _ & _).
  destruct (percent_defined (currentPos w1) (minPos w1) (maxPos w1)) as (p & Hp');
    [rewrite Hmn1, Hmx1; unfold u16 in *; lia | rewrite Hmn1, Hmx1; exact Hne |].
  unfold percent in Hp'.
  destruct (Arduino.map (currentPos w1) (minPos w1) (maxPos w1) 0 100) as [v |] eqn:Hmap;
    [| discriminate Hp'].
  exists w1, evs. split; [| auto].
  rewrite Hrun. unfold map_, bind, ret. rewrite Hmap. reflexivity.
Qed.

(** X9: [move_stepper_to_position] checks no limit.  Between boundaries
    that differ, it drives from any 16-bit position to any 16-bit target,
    inside the boundaries or not, with exactly |target - currentPos| step
    pulses, and changes nothing but the position, the time of the last move
    and the outputs.  With equal boundaries it never returns: the percentage
    of its closing log line divides by zero. *)
Theorem move_stepper_to_position_unbounded (env : Env) (w : World) (newPos : Z) :
  u16 (minPos w) -> u16 (maxPos w) -> u16 (currentPos w) -> u16 newPos ->
  (minPos w <> maxPos w ->
   exists w' evs, move_stepper_to_position env newPos w = Done tt w' /\
     currentPos w' = newPos /\
     trace w' = trace w ++ evs /\
     step_pulses evs = distance (currentPos w) newPos /\
     motion_only w w') /\
  (minPos w = maxPos w ->
   move_stepper_to_position env newPos w = Fault DivisionByZero).
Proof.
  intros Hmn Hmx Hcur Hnew.
  destruct (move_stepper_to_position_run env w newPos Hcur Hnew)
    as (w1 & evs & Hm & Hc1 & Htr & Hp & Hrun).
  pose proof (motion_only_no_commit w w1 Hm) as (Hmn1 & Hmx1 & _ & _).
  rewrite Hrun, Hmn1, Hmx1. unfold map_, bind, ret. split.
  - intros Hne.
    destruct (percent_defined newPos (minPos w) (maxPos w)) as (p & Hp');
      [unfold u16 in *; lia | exact Hne |].
    unfold percent in Hp'. rewrite Hc1.
    destruct (Arduino.map newPos (minPos w) (maxPos w) 0 100) as [v |];
      [| discriminate Hp'].
    exists w1, evs. repeat split; assumption.
  - intros Heq. rewrite Heq, map_equal_bounds. reflexivity.
Qed.

Lemma drive_500_to_1200 :
  (0 <> 1000 ->
   exists w' evs, move_stepper_to_position quiet_env 1200 (at_positions 0 1000 500) = Done tt w' /\
     currentPos w' = 1200 /\
     trace w' = [] ++ evs /\
     step_pulses evs = 700%nat /\
     motion_only (at_positions 0 1000 500) w') /\
  (0 = 1000 ->
   move_stepper_to_position quiet_env 1200 (at_positions 0 1000 500) = Fault DivisionByZero).
Proof.
  apply (move_stepper_to_position_unbounded quiet_env (at_positions 0 1000 500) 1200);
    unfold u16; cbn; lia.
Defined.

(** ** A handled request *)

Lemma to_i32_range z : -2147483648 <= Arduino.to_i32 z < 2147483648.
Proof.
  unfold Arduino.to_i32.
  pose proof (Z.mod_pos_bound (z + 2147483648) 4294967296 ltac:(lia)). lia.
Qed.

Lemma map_target p mn mx :
  0 <= p < 2147483648 -> u16 mn -> u16 mx -> mn <= mx -> p * (mx - mn) < 2147483648 ->
  Arduino.map p 0 100 mn mx = Some (target_of p mn mx).
Proof.
  unfold u16, target_of. intros Hp Hmn Hmx Hle Hprod.
  assert (Hq : 0 <= p * (mx - mn) / 100 < 2147483648 - 65536).
  { split; [apply Z.div_pos; nia |].
    apply Z.div_lt_upper_bound; lia. }
  unfold Arduino.map. cbv zeta.
  replace (100 - 0) with 100 by lia. rewrite Z.sub_0_r.
  rewrite (to_i32_small 100) by lia. cbn [Z.eqb].
  rewrite (to_i32_small p) by lia.
  rewrite (to_i32_small (mx - mn)) by lia.
  rewrite (to_i32_small (p * (mx - mn))) by nia.
  rewrite Z.quot_div_nonneg by nia.
  rewrite to_i32_small by lia. f_equal. lia.
Qed.

Lemma if_emit_operation (c : bool) (w : World) :
  (if c
   then fun w0 : World =>
          Done tt (set_trace (trace w0 ++ [SetCurrentOperation WINDOW_COVERING_OPENING]) w0)
   else fun w0 : World =>
          Done tt (set_trace (trace w0 ++ [SetCurrentOperation WINDOW_COVERING_CLOSING]) w0)) w =
  Done tt (set_trace
             (trace w ++ [SetCurrentOperation
                            (if c then WINDOW_COVERING_OPENING else WINDOW_COVERING_CLOSING)]) w).
Proof. destruct c; reflexivity. Qed.

Lemma run_matter_mode_handled env w :
  requested_raw env w <> lastReqLiftRaw w ->
  0 <= requested_percent env w ->
  requested_percent env w * (maxPos w - minPos w) < 2147483648 ->
  u16 (minPos w) -> u16 (maxPos w) -> minPos w < maxPos w -> u16 (currentPos w) ->
  u16 (target_of (requested_percent env w) (minPos w) (maxPos w)) ->
  exists w' mid,
    run_matter_mode env w = Done tt w' /\
    currentPos w' = target_of (requested_percent env w) (minPos w) (maxPos w) /\
    lastReqLiftRaw w' = requested_raw env w /\
    trace w' =
      trace w ++
      [SetCurrentOperation (operation_towards (currentPos w) (currentPos w'));
       DigitalWrite LED_RED HIGH] ++
      mid ++
      [DigitalWrite LED_RED LOW; SetActualLiftRaw (requested_raw env w);
       SetCurrentOperation WINDOW_COVERING_STOPPED] /\
    step_pulses mid = distance (currentPos w) (currentPos w') /\
    no_commit w w'.
Proof.
  unfold requested_raw, requested_percent.
  set (p := Arduino.to_i32 (env_requested_percent env (S (tick w)))).
  set (raw := Arduino.to_u16 (env_requested_raw env (tick w))).
  set (target := target_of p (minPos w) (maxPos w)).
  intros Hraw Hp Hprod Hmn Hmx Hlt Hcur Htarget.
  pose proof (to_i32_range (env_requested_percent env (S (tick w)))) as Hp32. fold p in Hp32.
  pose proof (map_target p (minPos w) (maxPos w) ltac:(lia) Hmn Hmx ltac:(lia) Hprod) as Hmap.
  fold target in Hmap.
  set (w_a := set_trace
                ((trace w ++ [SetCurrentOperation (operation_towards (currentPos w) target)]) ++
                 [DigitalWrite LED_RED HIGH])
                (set_tick (S (S (tick w))) w)).
  destruct (move_stepper_to_position_full env w_a target Hmn Hmx Hcur Htarget)
    as (w_b & mid & Hmove & Hcb & Htrb & Hpb & Hmb);
    [cbn; unfold u16 in *; lia |].
  pose proof (motion_only_no_commit w_a w_b Hmb) as (Hmnb & Hmxb & Hcmb & Heeb).
  cbn [minPos maxPos calibratingMin eeprom w_a set_trace set_tick] in Hmnb, Hmxb, Hcmb, Heeb.
  destruct (percent_defined (currentPos w_b) (minPos w_b) (maxPos w_b)) as (q & Hq);
    [rewrite Hmnb, Hmxb; unfold u16 in *; lia | rewrite Hmnb, Hmxb; lia |].
  unfold percent in Hq.
  destruct (Arduino.map (currentPos w_b) (minPos w_b) (maxPos w_b) 0 100) as [v |] eqn:Hmap2;
    [| discriminate Hq].
  assert (Hrun : run_matter_mode env w =
                 Done tt (set_lastReqLiftRaw raw
                            (set_trace
                               (((trace w_b ++ [DigitalWrite LED_RED LOW]) ++
                                 [SetActualLiftRaw raw]) ++
                                [SetCurrentOperation WINDOW_COVERING_STOPPED]) w_b))).
  { unfold run_matter_mode, get_requested_lift_position_raw,
      get_requested_lift_position_percent, observe, map_. unfold_sketch.
    cbn [tick set_tick minPos maxPos currentPos lastReqLiftRaw].
    fold raw.
    destruct (Z.eqb_spec raw (lastReqLiftRaw w)) as [? | _]; [contradiction |].
    cbn [tick set_tick minPos maxPos currentPos lastReqLiftRaw]. fold p.
    rewrite Hmap. cbv beta iota. rewrite (to_u16_small target) by exact Htarget.
    rewrite if_emit_operation. cbv beta iota.
    cbn [tick set_tick minPos maxPos currentPos lastReqLiftRaw].
    match goal with
    | |- context [move_stepper_to_position env ?t ?x] =>
        replace (move_stepper_to_position env t x)
          with (move_stepper_to_position env target w_a) by reflexivity
    end.
    rewrite Hmove. cbv beta iota.
    cbn [minPos maxPos currentPos set_trace].
    rewrite Hmap2. reflexivity. }
  eexists. exists mid. split; [exact Hrun |].
  cbn [currentPos lastReqLiftRaw trace set_lastReqLiftRaw set_trace
       minPos maxPos calibratingMin eeprom].
  rewrite Hcb. split; [reflexivity |]. split; [reflexivity |].
  split; [| split].
  - rewrite Htrb. cbn [trace w_a set_trace]. rewrite <- !app_assoc. reflexivity.
  - rewrite Hpb. reflexivity.
  - repeat split; assumption.
Qed.

(** X10: a new request for a percentage in [0,100], between 16-bit
    boundaries with [minPos < maxPos].  The handler reports the direction
    (opening when the target is above the position, closing otherwise, also
    when the motor already stands on the target), drives to
    [minPos + percent * (maxPos - minPos) / 100], which lies between the
    boundaries, with exactly as many step pulses as the distance, then
    reports the requested raw value as the actual one and the state stopped,
    and records the request as handled.  It commits nothing. *)
Theorem handled_request_reaches_target (env : Env) (w : World) :
  requested_raw env w <> lastReqLiftRaw w ->
  0 <= requested_percent env w <= 100 ->
  u16 (minPos w) -> u16 (maxPos w) -> minPos w < maxPos w -> u16 (currentPos w) ->
  exists w' mid,
    run_matter_mode env w = Done tt w' /\
    currentPos w' = target_of (requested_percent env w) (minPos w) (maxPos w) /\
    minPos w <= currentPos w' <= maxPos w /\
    lastReqLiftRaw w' = requested_raw env w /\
    trace w' =
      trace w ++
      [SetCurrentOperation (operation_towards (currentPos w) (currentPos w'));
       DigitalWrite LED_RED HIGH] ++
      mid ++
      [DigitalWrite LED_RED LOW; SetActualLiftRaw (requested_raw env w);
       SetCurrentOperation WINDOW_COVERING_STOPPED] /\
    step_pulses mid = distance (currentPos w) (currentPos w') /\
    no_commit w w'.
Proof.
  intros Hraw Hp Hmn Hmx Hlt Hcur.
  assert (Hin : minPos w <= target_of (requested_percent env w) (minPos w) (maxPos w)
                <= maxPos w).
  { unfold target_of, u16 in *.
    assert (0 <= requested_percent env w * (maxPos w - minPos w) / 100 <= maxPos w - minPos w).
    { split; [apply Z.div_pos; nia |]. apply Z.div_le_upper_bound; nia. }
    lia. }
  destruct (run_matter_mode_handled env w) as (w' & mid & Hrun & Hc & Hl & Htr & Hpu & Hk);
    try assumption.
  - lia.
  - unfold u16 in *. nia.
  - unfold u16 in *. lia.
  - exists w', mid. rewrite Hc. repeat split; try assumption; try lia.
    + rewrite <- Hc. exact Htr.
    + rewrite <- Hc. exact Hpu.
    + apply Hk.
    + apply Hk.
    + apply Hk.
    + apply Hk.
Qed.

Lemma request_51_percent :
  exists w' mid,
    run_matter_mode remote_env remote_booted = Done tt w' /\
    currentPos w' = 510 /\
    0 <= currentPos w' <= 1000 /\
    lastReqLiftRaw w' = 5100 /\
    trace w' =
      trace remote_booted ++
      [SetCurrentOperation (operation_towards 500 (currentPos w'));
       DigitalWrite LED_RED HIGH] ++
      mid ++
      [DigitalWrite LED_RED LOW; SetActualLiftRaw 5100;
       SetCurrentOperation WINDOW_COVERING_STOPPED] /\
    step_pulses mid = distance 500 (currentPos w') /\
    no_commit remote_booted w'.
Proof.
  apply (handled_request_reaches_target remote_env remote_booted).
  - vm_compute. discriminate.
  - vm_compute. split; discriminate.
  - vm_compute. split; [discriminate | reflexivity].
  - vm_compute. split; [discriminate | reflexivity].
  - vm_compute. reflexivity.
  - vm_compute. split; [discriminate | reflexivity].
Defined.

(** X11: the target is not clamped.  For a requested percentage above
    100 (with a travel of at least 100 steps, the product within [long] and
    the target within 16 bits) the handler drives the motor beyond
    [maxPos]. *)
Theorem request_above_100_overshoots (env : Env) (w : World) :
  requested_raw env w <> lastReqLiftRaw w ->
  100 < requested_percent env w ->
  requested_percent env w * (maxPos w - minPos w) < 2147483648 ->
  u16 (minPos w) -> u16 (maxPos w) -> 100 <= maxPos w - minPos w -> u16 (currentPos w) ->
  u16 (target_of (requested_percent env w) (minPos w) (maxPos w)) ->
  exists w', run_matter_mode env w = Done tt w' /\
    currentPos w' = target_of (requested_percent env w) (minPos w) (maxPos w) /\
    maxPos w' = maxPos w /\ maxPos w' < currentPos w'.
Proof.
  intros Hraw Hp Hprod Hmn Hmx Hd Hcur Ht.
  destruct (run_matter_mode_handled env w) as (w' & mid & Hrun & Hc & _ & _ & _ & Hk);
    try assumption; try lia.
  exists w'. split; [exact Hrun |]. split; [exact Hc |].
  destruct Hk as (_ & Hmx' & _). split; [exact Hmx' |].
  rewrite Hc, Hmx'. unfold target_of.
  assert (maxPos w - minPos w + 1 <= requested_percent env w * (maxPos w - minPos w) / 100).
  { apply Z.div_le_lower_bound; nia. }
  lia.
Qed.

Lemma request_150_percent :
  exists w', run_matter_mode overshoot_env (at_positions 0 1000 500) = Done tt w' /\
    currentPos w' = 1500 /\ maxPos w' = 1000 /\ maxPos w' < currentPos w'.
Proof.
  apply (request_above_100_overshoots overshoot_env (at_positions 0 1000 500)).
  - vm_compute. discriminate.
  - vm_compute. reflexivity.
  - vm_compute. reflexivity.
  - vm_compute. split; [discriminate | reflexivity].
  - vm_compute. split; [discriminate | reflexivity].
  - vm_compute. discriminate.
  - vm_compute. split; [discriminate | reflexivity].
  - vm_compute. split; [discriminate | reflexivity].
Defined.

(** ** Outside calibration mode *)

Lemma boundaries_kept_refl w : boundaries_kept w w.
Proof. repeat split. Qed.

Lemma boundaries_kept_trans w1 w2 w3 :
  boundaries_kept w1 w2 -> boundaries_kept w2 w3 -> boundaries_kept w1 w3.
Proof.
  unfold boundaries_kept. intros (?&?&?&?&?&?&?) (?&?&?&?&?&?&?).
  repeat split; congruence.
Qed.

Ltac keeps_boundaries := repeat keeps_step boundaries_kept_refl boundaries_kept_trans.

Lemma no_commit_boundaries_kept w w' :
  no_commit w w' -> holdTimer w' = holdTimer w -> boundaries_kept w w'.
Proof.
  intros (Hmn & Hmx & Hcm & Hee) Hh. unfold boundaries_kept. rewrite Hee. auto 10.
Qed.

Lemma step_until_boundaries_kept env fuel dir newPos :
  keeps boundaries_kept (step_until env fuel dir newPos).
Proof.
  induction fuel as [| fuel IH]; cbn [step_until];
    unfold matter_step, millis, digitalWrite, delayMicroseconds,
      set_actual_lift_position_raw, emit; keeps_boundaries.
Qed.

Lemma run_matter_mode_boundaries_kept env : keeps boundaries_kept (run_matter_mode env).
Proof.
  pose proof (step_until_boundaries_kept env) as Hloop.
  unfold run_matter_mode, move_stepper_to_position, wakeDriver,
    get_requested_lift_position_raw, get_requested_lift_position_percent,
    digitalWrite, set_actual_lift_position_raw, set_current_operation, emit.
  keeps_boundaries.
Qed.

Lemma updateLEDs_boundaries_kept env : keeps boundaries_kept (updateLEDs env).
Proof. unfold updateLEDs, digitalRead, digitalWrite, emit. keeps_boundaries. Qed.

Lemma updateSleepAndAutoSave_boundaries_kept env :
  keeps boundaries_kept (updateSleepAndAutoSave env).
Proof.
  intros w [] w' Hrun.
  destruct (updateSleepAndAutoSave_calibration env w)
    as (v & Hv & Hmn & Hmx & Hcm & Hh & Smn & Smx & Sfl).
  rewrite Hv in Hrun. inversion Hrun; subst v. repeat split; assumption.
Qed.

Lemma run_calibration_mode_left env w :
  env_pin env (tick w) MODE_SWITCH_PIN = LOW ->
  run_calibration_mode env w = Done tt (set_tick (S (tick w)) w).
Proof.
  intros Hsw. unfold run_calibration_mode, digitalRead, observe, bind.
  rewrite Hsw. reflexivity.
Qed.

(** X12: boundaries change in calibration mode only.  A turn of [loop]
    in which the mode switch reads LOW at every read leaves [minPos],
    [maxPos], the calibration state and the hold timer as they are, and in
    the store the MIN, MAX and flag cells, whatever is requested and however
    long the motor has been idle. *)
Theorem loop_outside_calibration_keeps_boundaries (env : Env) (w w' : World) :
  (forall k, env_pin env k MODE_SWITCH_PIN = LOW) ->
  loop env w = Done tt w' ->
  boundaries_kept w w'.
Proof.
  intros Hlow Hrun. unfold loop in Hrun.
  apply bind_inv in Hrun. destruct Hrun as ([] & w1 & Hleds & Hrun).
  apply bind_inv in Hrun. destruct Hrun as ([] & w2 & Hidle & Hrun).
  unfold digitalRead, observe in Hrun. unfold bind at 1 in Hrun.
  rewrite Hlow in Hrun.
  apply (boundaries_kept_trans w w1 w');
    [apply (updateLEDs_boundaries_kept env w tt w1 Hleds) |].
  apply (boundaries_kept_trans w1 w2 w');
    [apply (updateSleepAndAutoSave_boundaries_kept env w1 tt w2 Hidle) |].
  apply (boundaries_kept_trans w2 (set_tick (S (tick w2)) w2) w'); [repeat split |].
  apply (run_matter_mode_boundaries_kept env _ tt w' Hrun).
Qed.

Lemma first_remote_turn_keeps_boundaries : boundaries_kept remote_booted remote_first_turn.
Proof.
  apply (loop_outside_calibration_keeps_boundaries remote_env).
  - intros k. reflexivity.
  - vm_compute. reflexivity.
Defined.

(** ** Debouncing *)

Lemma to_u32_diag z : (Arduino.to_u32 (z - z) >? DEBOUNCE_MS) = false.
Proof. rewrite Z.sub_diag. reflexivity. Qed.

(** X13: a change of level is never reported by the call that sees it.
    In calibration mode, when the level read differs from the last level
    read, [is_button_pressed] records the new level and the time of the
    change and reports the debounced state as it was, whatever the clock
    reads. *)
Theorem debounce_change_not_reported (env : Env) (w : World) (pin : Pin) :
  env_pin env (tick w) MODE_SWITCH_PIN = HIGH ->
  raw_pressed env pin w <> lastRaw w pin ->
  exists w', is_button_pressed env pin w = Done (stable w pin) w' /\
    lastRaw w' pin = raw_pressed env pin w /\
    lastChangeTime w' pin = debounce_clock env w /\
    (forall q, stable w' q = stable w q) /\
    debounce_only w w'.
Proof.
  unfold raw_pressed, debounce_clock. intros Hsw Hchange.
  unfold is_button_pressed, digitalRead, millis. unfold_sketch.
  cbn. rewrite Hsw. cbn.
  destruct (eqb_spec (negb (env_pin env (S (tick w)) pin)) (lastRaw w pin)) as [? | _];
    [contradiction |].
  cbn. rewrite upd_same, to_u32_diag. cbn.
  eexists. split; [reflexivity |]. cbn. rewrite !upd_same.
  split; [reflexivity |]. split; [reflexivity |]. split; [reflexivity |].
  destruct w; reflexivity.
Qed.

(** X14: a steady level is taken over after the debounce window.  In
    calibration mode, when the level read equals the last level read,
    [is_button_pressed] reports that level if the clock is more than
    [DEBOUNCE_MS] past the last change, and the debounced state as it was
    otherwise; the record of the last change is left alone. *)
Theorem debounce_steady_level (env : Env) (w : World) (pin : Pin) :
  env_pin env (tick w) MODE_SWITCH_PIN = HIGH ->
  raw_pressed env pin w = lastRaw w pin ->
  exists w',
    is_button_pressed env pin w =
      Done (if Arduino.to_u32 (debounce_clock env w - lastChangeTime w pin) >? DEBOUNCE_MS
            then raw_pressed env pin w else stable w pin) w' /\
    lastRaw w' pin = lastRaw w pin /\
    lastChangeTime w' pin = lastChangeTime w pin /\
    (forall q, q <> pin -> stable w' q = stable w q) /\
    debounce_only w w'.
Proof.
  unfold raw_pressed, debounce_clock. intros Hsw Hsame.
  unfold is_button_pressed, digitalRead, millis. unfold_sketch.
  cbn. rewrite Hsw. cbn. rewrite Hsame, eqb_reflx. cbn.
  destruct (_ >? DEBOUNCE_MS); cbn;
    (eexists; split; [rewrite ?upd_same; reflexivity |]); cbn;
    (split; [reflexivity |]); (split; [reflexivity |]);
    (split; [| destruct w; reflexivity]).
  - intros q Hq. unfold upd. destruct (decide (q = pin)); [contradiction | reflexivity].
  - reflexivity.
Qed.

(** X15: in Matter mode the buttons are ignored.  When the mode switch
    reads LOW at every read, whatever the buttons and their debounced
    states, the single-button part of calibration outputs nothing and moves
    nothing, and the two buttons are reported as not both pressed. *)
Theorem buttons_ignored_in_matter_mode (env : Env) (w : World) :
  (forall k, env_pin env k MODE_SWITCH_PIN = LOW) ->
  (exists w', single_button_moves env w = Done tt w' /\
     currentPos w' = currentPos w /\ trace w' = trace w /\
     forall q, stable w' q = stable w q) /\
  (exists w', are_both_pressed env w = Done false w' /\ trace w' = trace w).
Proof.
  intros Hlow.
  assert (Hbtn : forall pin v, is_button_pressed env pin v = Done false (set_tick (S (tick v)) v)).
  { intros pin v. unfold is_button_pressed, digitalRead, observe, bind.
    rewrite Hlow. reflexivity. }
  split.
  - eexists. split.
    + unfold single_button_moves, and_then, not_, bind, ret. rewrite !Hbtn. reflexivity.
    + repeat split.
  - eexists. split.
    + unfold are_both_pressed, and_then, bind, ret. rewrite Hbtn. reflexivity.
    + reflexivity.
Qed.

Lemma change_seen_on_press :
  exists w', is_button_pressed up_env MOVE_UP_BUTTON (at_positions 0 1000 500) = Done false w' /\
    lastRaw w' MOVE_UP_BUTTON = true /\
    lastChangeTime w' MOVE_UP_BUTTON = 5000 /\
    (forall q, stable w' q = false) /\
    debounce_only (at_positions 0 1000 500) w'.
Proof.
  apply (debounce_change_not_reported up_env (at_positions 0 1000 500) MOVE_UP_BUTTON).
  - reflexivity.
  - vm_compute. discriminate.
Defined.

Lemma press_accepted_after_window :
  exists w',
    is_button_pressed up_env MOVE_UP_BUTTON level_seen = Done true w' /\
    lastRaw w' MOVE_UP_BUTTON = true /\
    lastChangeTime w' MOVE_UP_BUTTON = 0 /\
    (forall q, q <> MOVE_UP_BUTTON -> stable w' q = false) /\
    debounce_only level_seen w'.
Proof.
  apply (debounce_steady_level up_env level_seen MOVE_UP_BUTTON).
  - reflexivity.
  - reflexivity.
Defined.

Lemma remote_buttons_ignored :
  (exists w', single_button_moves remote_env (holding 1000 (at_positions 0 1000 500)) = Done tt w' /\
     currentPos w' = 500 /\ trace w' = [] /\
     forall q, stable w' q = true) /\
  (exists w', are_both_pressed remote_env (holding 1000 (at_positions 0 1000 500)) = Done false w' /\
     trace w' = []).
Proof.
  apply (buttons_ignored_in_matter_mode remote_env (holding 1000 (at_positions 0 1000 500))).
  intros k. reflexivity.
Defined.

(** ** Commits *)

Lemma hold_logic_commits env w :
  holdTimer w <> 0 ->
  Arduino.to_u32 (Arduino.to_u32 (env_millis env (tick w)) - holdTimer w) >= HOLD_TIMER_THRESHOLD ->
  exists w', hold_logic env true w = Done tt w' /\ committed w w'.
Proof.
  intros Hne Hge. apply Z.ge_le, Z.geb_le in Hge.
  assert (Hrun : hold_logic env true w =
                 (commit_boundary ;; modify (set_holdTimer 0)) (set_tick (S (tick w)) w)).
  { unfold hold_logic, millis, bind, gets, observe, modify, ret.
    destruct (Z.eqb_spec (holdTimer w) 0) as [? | _]; [contradiction |].
    cbn [tick set_tick holdTimer]. rewrite Hge. reflexivity. }
  rewrite Hrun. unfold bind, modify, committed.
  destruct (calibratingMin w) eqn:Ecm.
  - destruct (commit_boundary_min (set_tick (S (tick w)) w) Ecm)
      as (v & Hv & Vmn & Vmx & Vcur & Vcm & _).
    rewrite Hv. eexists. split; [reflexivity |]. cbn. rewrite Vcm, Vcur, Vmn, Vmx. cbn.
    repeat split.
  - destruct (commit_boundary_max (set_tick (S (tick w)) w) Ecm)
      as (v & Hv & Vmn & Vmx & Vcur & Vcm).
    rewrite Hv. eexists. split; [reflexivity |]. cbn. rewrite Vcm, Vcur, Vmn, Vmx. cbn.
    repeat split.
Qed.

(** A turn of calibration mode whose button reads all report pressed and
    change the debounce arrays only, made with a running timer past the
    threshold, commits. *)
Lemma turn_commits env w w1 w2 :
  env_pin env (tick w) MODE_SWITCH_PIN = HIGH ->
  single_button_moves env (set_tick (S (tick w)) w) = Done tt w1 ->
  debounce_only (set_tick (S (tick w)) w) w1 ->
  are_both_pressed env w1 = Done true w2 ->
  debounce_only w1 w2 ->
  holdTimer w <> 0 ->
  Arduino.to_u32 (Arduino.to_u32 (env_millis env (tick w2)) - holdTimer w) >= HOLD_TIMER_THRESHOLD ->
  exists w', run_calibration_mode env w = Done tt w' /\ committed w w'.
Proof.
  intros Hsw Hmoves D1 Hboth D2 Hne Hge.
  pose proof (debounce_only_trans _ _ _ D1 D2) as D.
  assert (Hh : holdTimer w2 = holdTimer w) by (rewrite D; reflexivity).
  destruct (hold_logic_commits env w2) as (w' & Hrun & Hc); [congruence | congruence |].
  exists w'. split.
  - rewrite (run_calibration_mode_calibrating env w Hsw).
    unfold bind. rewrite Hmoves, Hboth. exact Hrun.
  - unfold committed in *. rewrite D in Hc. cbn in Hc. exact Hc.
Qed.

(** The six button reads of a turn, when each reports pressed, changes the
    debounce arrays only and keeps an invariant [I] of the state. *)
Lemma turn_reads_pressed env (I : World -> Prop) (k0 : nat) :
  (forall v pin, I v -> (k0 <= tick v)%nat ->
     pin = MOVE_UP_BUTTON \/ pin = MOVE_DOWN_BUTTON ->
     exists v', is_button_pressed env pin v = Done true v' /\
       debounce_only v v' /\ tick v' = S (S (S (tick v))) /\ I v') ->
  forall w, I w -> (k0 <= tick w)%nat ->
    exists w1 w2,
      single_button_moves env w = Done tt w1 /\ debounce_only w w1 /\
      are_both_pressed env w1 = Done true w2 /\ debounce_only w1 w2 /\
      (k0 <= tick w2)%nat.
Proof.
  intros Hread w HI Hk.
  destruct (Hread w MOVE_UP_BUTTON) as (v1 & E1 & D1 & T1 & I1); auto.
  destruct (Hread v1 MOVE_DOWN_BUTTON) as (v2 & E2 & D2 & T2 & I2); auto; [lia |].
  destruct (Hread v2 MOVE_DOWN_BUTTON) as (v3 & E3 & D3 & T3 & I3); auto; [lia |].
  destruct (Hread v3 MOVE_UP_BUTTON) as (v4 & E4 & D4 & T4 & I4); auto; [lia |].
  destruct (Hread v4 MOVE_UP_BUTTON) as (v5 & E5 & D5 & T5 & I5); auto; [lia |].
  destruct (Hread v5 MOVE_DOWN_BUTTON) as (v6 & E6 & D6 & T6 & I6); auto; [lia |].
  exists v4, v6. split; [| split; [| split; [| split]]].
  - unfold single_button_moves, and_then, not_, bind, ret.
    rewrite E1; cbn [negb]. rewrite E2; cbn [negb]. rewrite E3; cbn [negb].
    rewrite E4; cbn [negb]. reflexivity.
  - eauto using debounce_only_trans.
  - unfold are_both_pressed, and_then, bind. rewrite E5. exact E6.
  - eauto using debounce_only_trans.
  - lia.
Qed.

(** X16: holding both buttons past the threshold commits.  In a turn of
    calibration mode with both buttons debounced as pressed and reading
    pressed, a hold timer that is running and a clock at least
    [HOLD_TIMER_THRESHOLD] past it, the motor is not moved, the boundary is
    stored ([currentPos] as MIN, or the ordered pair on a MAX commit), the
    calibration state toggles and the timer is cleared, so that a further
    commit needs a new full hold. *)
Theorem held_past_threshold_commits (env : Env) (w : World) (now : Z) :
  both_held env (tick w) ->
  (forall k, (tick w <= k)%nat -> Arduino.to_u32 (env_millis env k) = now) ->
  stable w MOVE_UP_BUTTON = true -> stable w MOVE_DOWN_BUTTON = true ->
  holdTimer w <> 0 ->
  Arduino.to_u32 (now - holdTimer w) >= HOLD_TIMER_THRESHOLD ->
  exists w', run_calibration_mode env w = Done tt w' /\ committed w w'.
Proof.
  intros Hheld Hclock Hup Hdown Hne Hge.
  destruct (turn_reads_pressed env
              (fun v => stable v MOVE_UP_BUTTON = true /\ stable v MOVE_DOWN_BUTTON = true)
              (tick w))
    with (w := set_tick (S (tick w)) w)
    as (w1 & w2 & Hmoves & D1 & Hboth & D2 & T2).
  - intros v pin (Vup & Vdown) Hk Hpin.
    destruct (is_button_pressed_steady env v pin true) as (v' & E & D & T & S').
    + apply (Hheld (tick v) Hk).
    + destruct (Hheld (S (tick v)) ltac:(lia)) as (_ & Hu & Hd).
      destruct Hpin as [-> | ->]; assumption.
    + destruct Hpin as [-> | ->]; assumption.
    + exists v'. rewrite !S'. auto.
  - split; assumption.
  - cbn. lia.
  - apply (turn_commits env w w1 w2); auto.
    + apply (Hheld (tick w)). lia.
    + rewrite (Hclock (tick w2) T2). exact Hge.
Qed.



Lemma hold_of_4_seconds_commits :
  exists w', run_calibration_mode held_env (holding 1000 (at_positions 0 1000 800)) = Done tt w' /\
    committed (holding 1000 (at_positions 0 1000 800)) w'.
Proof.
  apply (held_past_threshold_commits held_env (holding 1000 (at_positions 0 1000 800)) 5000).
  - intros k _. repeat split.
  - intros k _. reflexivity.
  - reflexivity.
  - reflexivity.
  - cbn. lia.
  - vm_compute. discriminate.
Defined.


(** ** Start-up *)

Lemma wait_until_ready fuel (cond : M bool) w w1 :
  cond w = Done true w1 -> wait_until fuel cond w = Done tt w1.
Proof.
  intros H. destruct fuel; cbn [wait_until]; unfold bind; rewrite H; reflexivity.
Qed.

Lemma initialize_eeprom_keeps_calibration :
  keeps (fun w w' => calibratingMin w' = calibratingMin w) initialize_eeprom.
Proof.
  unfold initialize_eeprom, EEPROM_put, EEPROM_get, emit.
  repeat keeps_step (fun w : World => eq_refl (calibratingMin w))
                    (fun (w1 w2 w3 : World)
                         (H12 : calibratingMin w2 = calibratingMin w1)
                         (H23 : calibratingMin w3 = calibratingMin w2) =>
                       eq_trans H23 H12).
Qed.

(** With the stack ready, [setup] comes to the store after four reads and
    six writes to pins. *)
Lemma setup_ready env fuel e :
  ready env ->
  setup env fuel (power_on e) =
  (initialize_eeprom ;;
   load_positions_from_eeprom ;;
   modify (fun w => set_lastSaved (currentPos w) w) ;;
   cur <- gets currentPos ;;
   mn <- gets minPos ;;
   mx <- gets maxPos ;;
   initPercent <- map_ cur mn mx 0 100 ;;
   set_actual_lift_position_percent (Arduino.to_u16 initPercent) ;;
   set_actual_lift_position_raw cur)
    (set_trace setup_outputs (set_tick 4 (power_on e))).
Proof.
  intros (Hc & Ht & Ho).
  unfold setup, disableMotor, sleepDriver, digitalWrite, emit, modify,
    isDeviceCommissioned, isDeviceThreadConnected, is_online, observe.
  unfold bind at 1. unfold bind at 1. unfold bind at 1. unfold bind at 1.
  unfold bind at 1. unfold bind at 1.
  cbn [trace set_trace tick set_tick power_on app].
  unfold bind at 1.
  erewrite wait_until_ready by (cbn [tick set_tick]; rewrite Hc; reflexivity).
  unfold bind at 1.
  erewrite wait_until_ready by (cbn [tick set_tick]; rewrite Ht; reflexivity).
  unfold bind at 1.
  erewrite wait_until_ready by (cbn [tick set_tick]; rewrite Ho; reflexivity).
  unfold bind at 1. reflexivity.
Qed.

(** X18: start-up on a store without the valid marker.  With the Matter
    stack ready, [setup] on such a store returns with the positions 0, 1000
    and 500 in memory and in the store, the position counted as saved and
    the calibration of MIN next, and its last two reports are 50 percent and
    raw position 500. *)
Theorem setup_on_blank_store (env : Env) (fuel : nat) (e : gmap Z Z) :
  ready env ->
  stored_flag e <> EEPROM_FLAG_VALUE ->
  exists w pre,
    setup env fuel (power_on e) = Done tt w /\
    minPos w = 0 /\ maxPos w = 1000 /\ currentPos w = 500 /\ lastSaved w = 500 /\
    calibratingMin w = true /\ defaults_stored (eeprom w) /\
    trace w = pre ++ [SetActualLiftPercent 50; SetActualLiftRaw 500].
Proof.
  intros Hready Hflag. rewrite (setup_ready env fuel e Hready).
  destruct (initialize_eeprom_uninitialised (set_trace setup_outputs (set_tick 4 (power_on e))))
    as (w1 & Hinit & Hdef); [exact Hflag |].
  assert (Hcm1 : calibratingMin w1 = true).
  { apply (initialize_eeprom_keeps_calibration _ tt w1 Hinit). }
  destruct Hdef as (Dmn & Dmx & Dcur & Dflag).
  unfold bind at 1. rewrite Hinit.
  unfold load_positions_from_eeprom, map_. unfold_sketch. cbn.
  rewrite Dmn, Dmx, Dcur. cbn.
  eexists. eexists. split; [reflexivity |]. cbn.
  repeat split; try assumption.
  rewrite <- app_assoc. reflexivity.
Qed.

Lemma setup_on_erased_store :
  exists w pre,
    setup quiet_env 0 (power_on ∅) = Done tt w /\
    minPos w = 0 /\ maxPos w = 1000 /\ currentPos w = 500 /\ lastSaved w = 500 /\
    calibratingMin w = true /\ defaults_stored (eeprom w) /\
    trace w = pre ++ [SetActualLiftPercent 50; SetActualLiftRaw 500].
Proof.
  apply (setup_on_blank_store quiet_env 0 ∅).
  - repeat split.
  - vm_compute. discriminate.
Defined.

(** X19: start-up on a valid record.  With the Matter stack ready and
    the valid marker in the store, [setup] takes the three positions from
    the record, counts the position as saved and leaves the store as it is,
    provided the stored boundaries differ; on a record with equal boundaries
    (which a MAX commit at the position of the MIN commit leaves) it stops
    in the division by zero of the initial percentage. *)
Theorem setup_on_valid_store (env : Env) (fuel : nat) (e : gmap Z Z) :
  ready env ->
  stored_flag e = EEPROM_FLAG_VALUE ->
  u16 (stored_min e) -> u16 (stored_max e) ->
  (stored_min e <> stored_max e ->
   exists w, setup env fuel (power_on e) = Done tt w /\
     minPos w = stored_min e /\ maxPos w = stored_max e /\
     currentPos w = stored_current e /\ lastSaved w = stored_current e /\
     eeprom w = e) /\
  (stored_min e = stored_max e ->
   setup env fuel (power_on e) = Fault DivisionByZero).
Proof.
  unfold u16. intros Hready Hflag Hmn Hmx.
  rewrite (setup_ready env fuel e Hready).
  unfold load_positions_from_eeprom, map_. unfold_sketch.
  rewrite (initialize_eeprom_initialised
             (set_trace setup_outputs (set_tick 4 (power_on e))) Hflag).
  cbn [eeprom set_trace set_tick power_on
       minPos maxPos currentPos set_minPos set_maxPos set_currentPos set_lastSaved].
  fold (stored_min e) (stored_max e) (stored_current e).
  split.
  - intros Hne.
    destruct (percent_defined (stored_current e) (stored_min e) (stored_max e))
      as (p & Hp); [lia | exact Hne |].
    unfold percent in Hp.
    destruct (Arduino.map (stored_current e) (stored_min e) (stored_max e) 0 100)
      as [v |]; [| discriminate Hp].
    eexists. split; [reflexivity |]. cbn. repeat split.
  - intros Heq. rewrite Heq, map_equal_bounds. reflexivity.
Qed.

Lemma setup_on_stored_50_120 :
  (50 <> 120 ->
   exists w, setup quiet_env 0 (power_on (store_of 50 120 50)) = Done tt w /\
     minPos w = 50 /\ maxPos w = 120 /\
     currentPos w = 50 /\ lastSaved w = 50 /\
     eeprom w = store_of 50 120 50) /\
  (50 = 120 ->
   setup quiet_env 0 (power_on (store_of 50 120 50)) = Fault DivisionByZero).
Proof.
  apply (setup_on_valid_store quiet_env 0 (store_of 50 120 50)).
  - repeat split.
  - vm_compute. reflexivity.
  - vm_compute. split; [discriminate | reflexivity].
  - vm_compute. split; [discriminate | reflexivity].
Defined.

(** ** Percentage there and back *)

(** X20: the percentage of the target of a percentage.  Over a travel of
    at least 100 steps, the target computed for a requested percentage [p]
    in [0,100] has, by the remap back that the handler's closing log line
    prints, the percentage [p] or [p - 1]. *)
Theorem percent_of_target (p mn mx : Z) :
  0 <= p <= 100 -> u16 mn -> u16 mx -> 100 <= mx - mn ->
  exists q, percent (target_of p mn mx) mn mx = Some q /\ p - 1 <= q <= p.
Proof.
  unfold u16, target_of. intros Hp Hmn Hmx Hd.
  set (d := mx - mn). set (t := p * d / 100).
  assert (Ht : 0 <= t <= d).
  { unfold t. split; [apply Z.div_pos; nia |]. apply Z.div_le_upper_bound; nia. }
  assert (Ht1 : t * 100 <= p * d < t * 100 + 100).
  { unfold t. pose proof (Z.div_mod (p * d) 100 ltac:(lia)).
    pose proof (Z.mod_pos_bound (p * d) 100 ltac:(lia)). lia. }
  rewrite percent_in_range by lia.
  replace (mn + t - mn) with t by lia.
  eexists. split; [reflexivity |]. fold d. split.
  - apply Z.div_le_lower_bound; nia.
  - apply Z.div_le_upper_bound; nia.
Qed.

Lemma percent_of_target_33 :
  exists q, percent (target_of 33 0 250) 0 250 = Some q /\ 33 - 1 <= q <= 33.
Proof. apply percent_of_target; unfold u16; lia. Defined.

(** ** Blocking waits *)

Lemma total_delay_app tr1 tr2 : total_delay (tr1 ++ tr2) = total_delay tr1 + total_delay tr2.
Proof.
  induction tr1 as [| e tr1 IH]; cbn; [reflexivity |].
  destruct e; cbn; lia.
Qed.

(** X21: [flash_both_leds n] blocks for 400 ms a flash.  It returns for
    every [n], having output [6 n] events that take [400 n] ms of delay and
    contain no step pulse, and changes nothing else. *)
Theorem flash_both_leds_blocks (n : nat) (w : World) :
  exists evs, flash_both_leds n w = Done tt (set_trace (trace w ++ evs) w) /\
    total_delay evs = 400 * Z.of_nat n /\
    length evs = (6 * n)%nat /\
    step_pulses evs = 0%nat.
Proof.
  revert w. induction n as [| n IH]; intros w.
  - exists []. split; [| repeat split].
    cbn. unfold ret. rewrite app_nil_r. destruct w; reflexivity.
  - set (w1 := set_trace
                 (trace w ++
                  [DigitalWrite LED_GREEN HIGH; DigitalWrite LED_RED HIGH; Delay 200;
                   DigitalWrite LED_GREEN LOW; DigitalWrite LED_RED LOW; Delay 200]) w).
    destruct (IH w1) as (evs & Hrun & Hd & Hl & Hp).
    exists ([DigitalWrite LED_GREEN HIGH; DigitalWrite LED_RED HIGH; Delay 200;
             DigitalWrite LED_GREEN LOW; DigitalWrite LED_RED LOW; Delay 200] ++ evs).
    split; [| split; [| split]].
    + unfold flash_both_leds in *. cbn [repeat_n]. unfold bind at 1.
      replace ((digitalWrite LED_GREEN HIGH ;; digitalWrite LED_RED HIGH ;; delay 200 ;;
                digitalWrite LED_GREEN LOW ;; digitalWrite LED_RED LOW ;; delay 200) w)
        with (Done tt w1)
        by (unfold w1; unfold_sketch; cbn; rewrite <- !app_assoc; reflexivity).
      rewrite Hrun. unfold w1. cbn. rewrite <- app_assoc. reflexivity.
    + rewrite total_delay_app, Hd. cbn. lia.
    + rewrite length_app, Hl. cbn. lia.
    + rewrite step_pulses_app, Hp. reflexivity.
Qed.

(** X22: the waits of [setup] poll every 200 ms.  If the polled flag
    reads false [n] times and then true, the wait returns after [n] delays
    of 200 ms and [n + 1] reads, having changed nothing else.  The result
    is the same for every iteration allowance of at least [n]. *)
Theorem wait_until_polls_every_200ms (env : Env) (f : Env -> nat -> bool)
    (n fuel : nat) (w : World) :
  (forall i, (i < n)%nat -> f env (tick w + i)%nat = false) ->
  f env (tick w + n)%nat = true ->
  (n <= fuel)%nat ->
  wait_until fuel (observe env f) w =
  Done tt (set_trace (trace w ++ repeat (Delay 200) n) (set_tick (S (tick w + n)) w)).
Proof.
  revert fuel w. induction n as [| n IH]; intros fuel w Hwait Hthen Hfuel.
  - rewrite Nat.add_0_r in Hthen.
    rewrite (wait_until_ready fuel _ w (set_tick (S (tick w)) w))
      by (unfold observe; rewrite Hthen; reflexivity).
    cbn. rewrite app_nil_r, Nat.add_0_r. destruct w; reflexivity.
  - destruct fuel as [| fuel]; [lia |].
    cbn [wait_until]. unfold bind at 1. unfold observe at 1.
    specialize (Hwait O ltac:(lia)) as H0. rewrite Nat.add_0_r in H0. rewrite H0.
    unfold delay, emit, modify. unfold bind at 1.
    rewrite IH.
    + destruct w; unfold set_trace, set_tick; cbn. f_equal.
      f_equal; first [rewrite <- app_assoc; reflexivity | lia].
    + intros i Hi. cbn [tick set_tick set_trace].
      replace (S (tick w) + i)%nat with (tick w + S i)%nat by lia. apply Hwait. lia.
    + cbn [tick set_tick set_trace].
      replace (S (tick w) + n)%nat with (tick w + S n)%nat by lia. exact Hthen.
    + lia.
Qed.

Lemma wait_for_online_two_polls :
  wait_until 5 (observe slow_env env_online) (power_on ∅) =
  Done tt (set_trace [Delay 200; Delay 200] (set_tick 3 (power_on ∅))).
Proof.
  apply (wait_until_polls_every_200ms slow_env env_online 2 5 (power_on ∅)).
  - intros i Hi. destruct i as [| [| i]]; [reflexivity | reflexivity | cbn in Hi; lia].
  - reflexivity.
  - cbn. lia.
Defined.

(** ** After the first save *)

Lemma store_frozen_refl w : store_frozen w w.
Proof. split; reflexivity. Qed.

Lemma store_frozen_trans w1 w2 w3 :
  store_frozen w1 w2 -> store_frozen w2 w3 -> store_frozen w1 w3.
Proof. unfold store_frozen. intros (? & ?) (? & ?). split; congruence. Qed.

Ltac keeps_store := repeat keeps_step store_frozen_refl store_frozen_trans.

Lemma step_until_store_frozen env fuel dir newPos :
  keeps store_frozen (step_until env fuel dir newPos).
Proof.
  induction fuel as [| fuel IH]; cbn [step_until];
    unfold matter_step, millis, digitalWrite, delayMicroseconds,
      set_actual_lift_position_raw, emit; keeps_store.
Qed.

Lemma run_matter_mode_store_frozen env : keeps store_frozen (run_matter_mode env).
Proof.
  pose proof (step_until_store_frozen env) as Hloop.
  unfold run_matter_mode, move_stepper_to_position, wakeDriver,
    get_requested_lift_position_raw, get_requested_lift_position_percent,
    digitalWrite, set_actual_lift_position_raw, set_current_operation, emit.
  keeps_store.
Qed.

Lemma updateLEDs_store_frozen env : keeps store_frozen (updateLEDs env).
Proof. unfold updateLEDs, digitalRead, digitalWrite, emit. keeps_store. Qed.

Lemma loop_store_frozen env w w' :
  (forall k, env_pin env k MODE_SWITCH_PIN = LOW) ->
  eepromSaved w = true ->
  loop env w = Done tt w' ->
  eepromSaved w' = true /\ eeprom w' = eeprom w.
Proof.
  intros Hlow Hflag Hrun. unfold loop in Hrun.
  apply bind_inv in Hrun. destruct Hrun as ([] & w1 & Hleds & Hrun).
  apply bind_inv in Hrun. destruct Hrun as ([] & w2 & Hidle & Hrun).
  unfold digitalRead, observe in Hrun. unfold bind at 1 in Hrun.
  rewrite Hlow in Hrun.
  destruct (updateLEDs_store_frozen env w tt w1 Hleds) as (F1 & E1).
  destruct (updateSleepAndAutoSave_flag_set env w1) as (v & Hv & E2 & _ & _ & F2 & _);
    [congruence |].
  rewrite Hv in Hidle. inversion Hidle; subst v.
  destruct (run_matter_mode_store_frozen env _ tt w' Hrun) as (F3 & E3).
  cbn [eepromSaved eeprom set_tick] in F3, E3.
  split; congruence.
Qed.

(** X23: in remote mode the position is saved once per power cycle.
    Once [eepromSaved] is set (the first auto-save sets it), no number of
    turns of [loop] with the mode switch reading LOW clears it or writes the
    store again, whatever moves are requested and however long the motor
    idles. *)
Theorem store_frozen_after_first_save (env : Env) (n : nat) (w w' : World) :
  (forall k, env_pin env k MODE_SWITCH_PIN = LOW) ->
  eepromSaved w = true ->
  loops env n w = Done tt w' ->
  eepromSaved w' = true /\ eeprom w' = eeprom w.
Proof.
  intros Hlow. revert w. unfold loops.
  induction n as [| n IH]; intros w Hflag Hrun.
  - inversion Hrun. subst w'. split; [exact Hflag | reflexivity].
  - cbn [repeat_n] in Hrun. apply bind_inv in Hrun.
    destruct Hrun as ([] & w1 & Hturn & Hrest).
    destruct (loop_store_frozen env w w1 Hlow Hflag Hturn) as (F1 & E1).
    destruct (IH w1 F1 Hrest) as (F & E). split; congruence.
Qed.

Lemma remote_store_frozen :
  eepromSaved remote_later = true /\ eeprom remote_later = eeprom remote_saved.
Proof.
  apply (store_frozen_after_first_save remote_env 2 remote_saved remote_later).
  - intros k. reflexivity.
  - vm_compute. reflexivity.
  - vm_compute. reflexivity.
Defined.
